(** * yandex-query-go: the request orchestrator and the result decoder

    A shallow embedding of the Go package [yq] (the client in the main
    source file and [result.go]) together with the properties its
    specification states about it.

    Conventions.
    - A Go [int], [int64] or [time.Duration] is a [Z]; arithmetic that can
      wrap goes through [wrap64].
    - A Go [interface{}] holding decoded JSON is a [value]; a
      [map[string]interface{}] is a [gmap string value] (a nil map reads
      like the empty map, which is all the code does with one).
    - A Go result pair [(x, err)] is a Rocq pair whose second component is
      an [option error]; [None] is the nil error.
    - A run-time panic is the outcome [None] of an [option]-valued function.
    - Calls that leave the package (the HTTP transport, the context, the
      clock, the standard parsers) are answered by an environment that is an
      explicit argument; every call is recorded in a trace. *)

From Stdlib Require Import ZArith Lia Ascii String Floats.PrimFloat Uint63.
From stdpp Require Import gmap strings list fin_maps pretty.

Set Warnings "-inexact-float,-register-all".
Local Open Scope string_scope.
Local Open Scope Z_scope.

(** ** Integers and durations *)

Definition wrap64 (z : Z) : Z := (z + 2 ^ 63) mod 2 ^ 64 - 2 ^ 63.

Definition Duration := Z.
Definition Millisecond : Duration := 1000000.
Definition Second : Duration := 1000000000.

(** [a * b] on [time.Duration] (an [int64]). *)
Definition Duration_mul (a b : Duration) : Duration := wrap64 (a * b).

(** [a + b] on [int]. *)
Definition int_add (a b : Z) : Z := wrap64 (a + b).

(** ** Dynamic values *)

(** A [time.Time], as far as this package looks at one: the civil fields
    and the zone offset in seconds. *)
Record Time := {
  year : Z; month : Z; day : Z;
  hour : Z; minute : Z; second : Z; nanosecond : Z;
  zone_offset : Z
}.

Inductive value :=
| VNil                                  (* the nil interface *)
| VBool (b : bool)
| VNumber (f : float)                   (* float64 *)
| VString (s : string)
| VTime (t : Time)                      (* time.Time *)
| VSlice (l : list value)               (* []interface{} *)
| VRows (l : list (list value))         (* [][]interface{} *)
| VMap (m : gmap string value).         (* map[string]interface{} *)

(** [m[k]] on a [map[string]interface{}]: the nil interface when absent. *)
Definition index (m : gmap string value) (k : string) : value :=
  default VNil (m !! k).

(** ** Errors *)

Record YQError := {
  Message : string;
  Status : string;
  Msg : string;
  Details : value
}.

Inductive error :=
| YQErr (e : YQError)                       (* a *YQError *)
| FmtErr (msg : string)                     (* fmt.Errorf(msg) *)
| LibErr (origin : string) (msg : string).  (* an error made outside the package *)

(** ** Constants and configuration *)

Definition MaxRetryForSession : nat := 4.
Definition TimeBetweenRetries : Duration := Duration_mul 1000 Millisecond.
Definition DefaultUserAgent : string := "Go YQ HTTP SDK".
Definition DefaultEndpoint : string := "https://api.yandex-query.cloud.yandex.net".
Definition DefaultWebBaseURL : string := "https://yq.cloud.yandex.ru".
Definition DefaultTokenPrefix : string := "Bearer ".

Record ClientConfig := {
  Token : string;
  Project : string;
  UserAgent : string;
  Endpoint : string;
  WebBaseURL : string;
  TokenPrefix : string
}.

Definition or_default (s d : string) : string :=
  if decide (s = "") then d else s.

(** [NewClient]; the [*http.Client] it creates is the environment's
    transport. *)
Definition NewClient (config : ClientConfig) : ClientConfig :=
  {| Token := Token config;
     Project := Project config;
     UserAgent := or_default (UserAgent config) DefaultUserAgent;
     Endpoint := or_default (Endpoint config) DefaultEndpoint;
     WebBaseURL := or_default (WebBaseURL config) DefaultWebBaseURL;
     TokenPrefix := or_default (TokenPrefix config) DefaultTokenPrefix |}.

(** ** HTTP requests and responses *)

(** [http.Header]: a map from canonical header names to value lists. *)
Abbreviation Header := (gmap string (list string)).

Definition is_lower (a : ascii) : bool :=
  let n := nat_of_ascii a in (97 <=? n)%nat && (n <=? 122)%nat.
Definition is_upper (a : ascii) : bool :=
  let n := nat_of_ascii a in (65 <=? n)%nat && (n <=? 90)%nat.
Definition is_digit (a : ascii) : bool :=
  let n := nat_of_ascii a in (48 <=? n)%nat && (n <=? 57)%nat.
Definition to_upper (a : ascii) : ascii :=
  if is_lower a then ascii_of_nat (nat_of_ascii a - 32) else a.
Definition to_lower (a : ascii) : ascii :=
  if is_upper a then ascii_of_nat (nat_of_ascii a + 32) else a.

(** The bytes net/textproto accepts in a header name. *)
Definition valid_header_byte (a : ascii) : bool :=
  is_lower a || is_upper a || is_digit a ||
  bool_decide (a ∈ list_ascii_of_string "!#$%&'*+-.^_`|~").

Fixpoint canonical_go (upper : bool) (s : string) : string :=
  match s with
  | EmptyString => EmptyString
  | String a s' =>
      String (if upper then to_upper a else to_lower a)
             (canonical_go (bool_decide (a = "-"%char)) s')
  end.

(** [textproto.CanonicalMIMEHeaderKey]: the first letter and every letter
    after a hyphen in upper case, the others in lower case; a name with a
    byte that is not allowed in header names is left as it is. *)
Definition CanonicalMIMEHeaderKey (s : string) : string :=
  if forallb valid_header_byte (list_ascii_of_string s)
  then canonical_go true s else s.

(** [h.Set(key, v)]. *)
Definition Header_Set (key v : string) (h : Header) : Header :=
  <[CanonicalMIMEHeaderKey key := [v]]> h.

(** The request handed to the transport.  [ReqHeader] is [None] for a nil
    header map.  [ReqBody] is the reader given to
    [http.NewRequestWithContext]: nil, or a buffer over [json.Marshal] of a
    [map[string]string], which is represented by that map. *)
Record Request := {
  Method : string;
  URL : string;
  ReqHeader : option Header;
  ReqBody : option (gmap string string)
}.

(** A response.  [BodyJSON] is what [encoding/json] reads as the first JSON
    value of the body ([None] when there is none, the body being empty or
    malformed); [BodyText] and [BodyReadErr] are what [io.ReadAll] returns. *)
Record Response := {
  StatusCode : Z;
  BodyText : string;
  BodyReadErr : option error;
  BodyJSON : option value
}.

Definition StatusOK : Z := 200.
Definition StatusNoContent : Z := 204.

(** ** The transport environment and [doRequest] *)

Inductive DoResult :=
| DoResponse (resp : Response)   (* c.client.Do returned (resp, nil) *)
| DoError (err : error).         (* c.client.Do returned a non-nil error *)

(** What the world answers to one run of [doRequest].
    - [NewRequest_err method url]: the error of
      [http.NewRequestWithContext], if it refuses the method or the URL;
    - [client_Do i req]: the outcome of the call of [c.client.Do] made in
      iteration [i];
    - [ctx_select i d]: the outcome of the [select] of iteration [i] over
      [ctx.Done()] and [time.After(d)]: [Some e] when the context is done
      first, [e] being [ctx.Err()], and [None] when the timer fires. *)
Record Transport := {
  NewRequest_err : string → string → option error;
  client_Do : nat → Request → DoResult;
  ctx_select : nat → Duration → option error
}.

(** The request of one iteration: [http.NewRequestWithContext(ctx, method,
    url, body)] followed by [req.Header = headers]. *)
Definition NewRequest (method url : string) (headers : option Header)
    (body : option (gmap string string)) : Request :=
  {| Method := method; URL := url; ReqHeader := headers; ReqBody := body |}.

Inductive Event :=
| EvDo (req : Request)      (* a request handed to the transport *)
| EvWait (d : Duration).    (* a select over the context and a timer of [d] *)

(** The loop of [doRequest].  [n] is the number of iterations left (the
    test [i <= MaxRetryForSession] holds exactly when [n] is not zero) and
    [err] is the variable [err] declared before the loop.  Inside the
    loop body [req, err := ...] declares a second [err], local to the
    body; the assignment [resp, err = c.client.Do(req)] stores into that
    local one, so the outer [err] is what it was when the loop ends. *)
Fixpoint doRequest_loop (T : Transport) (n i : nat)
    (method url : string) (headers : option Header)
    (body : option (gmap string string)) (err : option error)
    : (option Response * option error) * list Event :=
  match n with
  | O => ((None, err), [])
  | S n' =>
      match NewRequest_err T method url with
      | Some err_i => ((None, Some err_i), [])
      | None =>
          let req := NewRequest method url headers body in
          match client_Do T i req with
          | DoResponse resp => ((Some resp, None), [EvDo req])
          | DoError err_i =>
              let d := Duration_mul TimeBetweenRetries (Z.of_nat (i + 1)) in
              match ctx_select T i d with
              | Some ctx_err => ((None, Some ctx_err), [EvDo req; EvWait d])
              | None =>
                  let '(r, tr) :=
                    doRequest_loop T n' (i + 1) method url headers body err in
                  (r, EvDo req :: EvWait d :: tr)
              end
          end
      end
  end.


Definition doRequest (T : Transport) (method url : string)
    (headers : option Header) (body : option (gmap string string))
    : (option Response * option error) * list Event :=
  doRequest_loop T (MaxRetryForSession + 1) 0 method url headers body None.

(** ** Outcomes of calls that can panic or loop *)

Inductive outcome (A : Type) : Type :=
| Returns (a : A)     (* the call returns [a] *)
| Panics              (* the call ends in a run-time panic *)
| OutOfFuel.          (* the loop is still running when the fuel is spent *)
Arguments Returns {A} a.
Arguments Panics {A}.
Arguments OutOfFuel {A}.

(** ** Functions of the Go standard library

    The package calls these and the development does not define them; it
    holds for whatever they compute.
    - [ParseFloat s]: [strconv.ParseFloat(s, 64)], [Some f] when the error
      is nil;
    - [Parse_RFC3339 s]: [time.Parse(time.RFC3339, s)], [Some t] when the
      error is nil;
    - [Sprint_other v]: what the verb [%v] prints for a number, a time, a
      slice or a map;
    - [decode_string_field tag body]: [Decode] into a struct whose only
      field is a string tagged [tag]: the field and the error. *)
Class StdLib := {
  ParseFloat : string → option float;
  Parse_RFC3339 : string → option Time;
  Sprint_other : value → string;
  decode_string_field : string → option value → string * option error
}.

(** ** Request construction *)

Definition buildHeaders (c : ClientConfig) (idempotencyKey requestID : string)
    : Header :=
  let headers : Header := ∅ in
  let headers := Header_Set "Authorization" (TokenPrefix c ++ Token c) headers in
  let headers :=
    if decide (idempotencyKey ≠ "")
    then Header_Set "Idempotency-Key" idempotencyKey headers else headers in
  let headers :=
    if decide (requestID ≠ "")
    then Header_Set "x-request-id" requestID headers else headers in
  let headers :=
    if decide (UserAgent c ≠ "")
    then Header_Set "User-Agent" (UserAgent c) headers else headers in
  headers.

Definition buildParams (c : ClientConfig) : gmap string string :=
  let params : gmap string string := ∅ in
  if decide (Project c ≠ "") then <["project" := Project c]> params else params.

Definition composeAPIURL (c : ClientConfig) (path : string) : string :=
  Endpoint c ++ path.

Definition composeWebURL (c : ClientConfig) (path : string) : string :=
  WebBaseURL c ++ path.

(** ** Response validation *)

(** [json.NewDecoder(body).Decode(&m)] for [m] a [map[string]interface{}]:
    an object fills the map, [null] leaves it nil, any other JSON value is a
    type error, and a body without well-formed JSON is a syntax error. *)
Definition decode_map (body : option value) : gmap string value * option error :=
  match body with
  | Some (VMap m) => (m, None)
  | Some VNil => (∅, None)
  | Some _ => (∅, Some (LibErr "json" "cannot unmarshal into Go value of type map[string]interface {}"))
  | None => (∅, Some (LibErr "json" "syntax error"))
  end.

Section Package.
Context {L : StdLib}.

(** [fmt.Sprintf("%v", v)]. *)
Definition Sprint (v : value) : string :=
  match v with
  | VNil => "<nil>"
  | VBool true => "true"
  | VBool false => "false"
  | VString s => s
  | _ => Sprint_other v
  end.

Definition validateHTTPError (resp : Response) (expectedCode : Z) : option error :=
  if decide (StatusCode resp ≠ expectedCode) then
    match decode_map (BodyJSON resp) with
    | (body, None) =>
        Some (YQErr
          {| Message := "Error occurred. http code=" ++ pretty (StatusCode resp)
                        ++ ", status=" ++ Sprint (index body "status")
                        ++ ", msg=" ++ Sprint (index body "message")
                        ++ ", details=" ++ Sprint (index body "details");
             Status := Sprint (index body "status");
             Msg := Sprint (index body "message");
             Details := index body "details" |})
    | (_, Some _) =>
        Some (YQErr
          {| Message := "Error occurred: " ++ pretty (StatusCode resp);
             Status := ""; Msg := ""; Details := VNil |})
    end
  else None.

(** ** The operations that send one request

    Each returns its Go result and the trace of its [doRequest].  A nil
    response with a nil error makes [resp.Body] in the [defer] statement a
    nil dereference: [Panics]. *)

(** The map [CreateQuery] marshals into the request body ([json.Marshal]
    of a [map[string]string] returns no error). *)
Definition CreateQuery_body (queryText queryType name description : string)
    : gmap string string :=
  let body : gmap string string := ∅ in
  let body := if decide (queryText ≠ "") then <["text" := queryText]> body else body in
  let body := if decide (queryType ≠ "") then <["type" := queryType]> body else body in
  let body := if decide (name ≠ "") then <["name" := name]> body else body in
  let body :=
    if decide (description ≠ "") then <["description" := description]> body else body in
  body.

(** What every operation does with the result of [doRequest] before it
    reads the body: return the error, or validate the status. *)
Definition checked {A : Type} (zero : A) (expectedCode : Z)
    (r : option Response * option error) (k : Response → A * option error)
    : outcome (A * option error) :=
  match r with
  | (_, Some err) => Returns (zero, Some err)
  | (None, None) => Panics
  | (Some resp, None) =>
      match validateHTTPError resp expectedCode with
      | Some err => Returns (zero, Some err)
      | None => Returns (k resp)
      end
  end.

Definition CreateQuery (T : Transport) (c : ClientConfig)
    (queryText queryType name description idempotencyKey requestID : string)
    : outcome (string * option error) * list Event :=
  let body := CreateQuery_body queryText queryType name description in
  let headers := buildHeaders c idempotencyKey requestID in
  let headers := Header_Set "Content-Type" "application/json" headers in
  let '(r, tr) :=
    doRequest T "POST" (composeAPIURL c "/api/fq/v1/queries")
              (Some headers) (Some body) in
  (checked "" StatusOK r (λ resp,
     match decode_string_field "id" (BodyJSON resp) with
     | (_, Some err) => ("", Some err)
     | (id, None) => (id, None)
     end), tr).

Definition GetQueryStatus (T : Transport) (c : ClientConfig)
    (queryID requestID : string)
    : outcome (string * option error) * list Event :=
  let headers := buildHeaders c "" requestID in
  let '(r, tr) :=
    doRequest T "GET"
      (composeAPIURL c ("/api/fq/v1/queries/" ++ queryID ++ "/status"))
      (Some headers) None in
  (checked "" StatusOK r (λ resp,
     match decode_string_field "status" (BodyJSON resp) with
     | (_, Some err) => ("", Some err)
     | (status, None) => (status, None)
     end), tr).

Definition GetQuery (T : Transport) (c : ClientConfig)
    (queryID requestID : string)
    : outcome (gmap string value * option error) * list Event :=
  let headers := buildHeaders c "" requestID in
  let '(r, tr) :=
    doRequest T "GET" (composeAPIURL c ("/api/fq/v1/queries/" ++ queryID))
              (Some headers) None in
  (checked ∅ StatusOK r (λ resp,
     match decode_map (BodyJSON resp) with
     | (_, Some err) => (∅, Some err)
     | (result, None) => (result, None)
     end), tr).

Definition StopQuery (T : Transport) (c : ClientConfig)
    (queryID idempotencyKey requestID : string)
    : outcome (option error) * list Event :=
  let headers := buildHeaders c idempotencyKey requestID in
  let '(r, tr) :=
    doRequest T "POST"
      (composeAPIURL c ("/api/fq/v1/queries/" ++ queryID ++ "/stop"))
      (Some headers) None in
  (match r with
   | (_, Some err) => Returns (Some err)
   | (None, None) => Panics
   | (Some resp, None) => Returns (validateHTTPError resp StatusNoContent)
   end, tr).

(** [params] is filled in and then not used: the URL carries no query
    string. *)
Definition GetQueryResultSetPage (T : Transport) (c : ClientConfig)
    (queryID : string) (resultSetIndex offset limit : Z) (rawFormat : bool)
    (requestID : string)
    : outcome (gmap string value * option error) * list Event :=
  let params := buildParams c in
  let params :=
    if decide (0 < offset) then <["offset" := pretty offset]> params else params in
  let params :=
    if decide (0 < limit) then <["limit" := pretty limit]> params else params in
  let headers := buildHeaders c "" requestID in
  let url :=
    composeAPIURL c ("/api/fq/v1/queries/" ++ queryID ++ "/results/"
                     ++ pretty resultSetIndex) in
  let '(r, tr) := doRequest T "GET" url (Some headers) None in
  (checked ∅ StatusOK r (λ resp,
     match decode_map (BodyJSON resp) with
     | (_, Some err) => (∅, Some err)
     | (result, None) => (result, None)
     end), tr).

Definition GetOpenAPISpec (T : Transport) (c : ClientConfig)
    : outcome (string * option error) * list Event :=
  let '(r, tr) :=
    doRequest T "GET" (composeAPIURL c "/resources/v1/openapi.yaml") None None in
  (checked "" StatusOK r (λ resp,
     match BodyReadErr resp with
     | Some err => ("", Some err)
     | None => (BodyText resp, None)
     end), tr).

Definition ComposeQueryWebLink (c : ClientConfig) (queryID : string) : string :=
  composeWebURL c ("/folders/" ++ Project c ++ "/ide/queries/" ++ queryID).

End Package.

(** ** result.go: the result decoder *)

(** *** [base64.StdEncoding.DecodeString]

    The standard alphabet with mandatory [=] padding; carriage returns and
    line feeds are skipped; the unused low bits of a padded group are not
    checked.  [None] stands for a non-nil error. *)

Definition b64_value (a : ascii) : option Z :=
  let n := Z.of_nat (nat_of_ascii a) in
  if is_upper a then Some (n - 65)
  else if is_lower a then Some (n - 97 + 26)
  else if is_digit a then Some (n - 48 + 52)
  else if bool_decide (a = "+"%char) then Some 62
  else if bool_decide (a = "/"%char) then Some 63
  else None.

Definition byte_of (z : Z) : ascii := ascii_of_nat (Z.to_nat (Z.land z 255)).

Definition is_pad (a : ascii) : bool := bool_decide (a = "="%char).

Fixpoint b64_groups (l : list ascii) : option (list ascii) :=
  match l with
  | [] => Some []
  | a :: b :: c :: d :: rest =>
      match b64_value a, b64_value b with
      | Some x, Some y =>
          if is_pad c then
            if is_pad d && bool_decide (rest = [])
            then Some [byte_of (Z.shiftr (Z.lor (Z.shiftl x 18) (Z.shiftl y 12)) 16)]
            else None
          else
            match b64_value c with
            | None => None
            | Some z =>
                let n3 := Z.lor (Z.lor (Z.shiftl x 18) (Z.shiftl y 12)) (Z.shiftl z 6) in
                if is_pad d then
                  if bool_decide (rest = [])
                  then Some [byte_of (Z.shiftr n3 16); byte_of (Z.shiftr n3 8)]
                  else None
                else
                  match b64_value d with
                  | None => None
                  | Some w =>
                      let n := Z.lor n3 w in
                      tl ← b64_groups rest;
                      Some (byte_of (Z.shiftr n 16) :: byte_of (Z.shiftr n 8)
                            :: byte_of n :: tl)
                  end
            end
      | _, _ => None
      end
  | _ => None
  end.

Definition is_newline (a : ascii) : bool :=
  bool_decide (a = ascii_of_nat 10) || bool_decide (a = ascii_of_nat 13).

Definition DecodeString (s : string) : option string :=
  string_of_list_ascii <$>
    b64_groups (filter (λ a, is_newline a = false) (list_ascii_of_string s)).

(** Addresses of map objects, and the store that holds the maps. *)
Abbreviation loc := positive.
Abbreviation store := (gmap loc (gmap string value)).

Section Decoder.
Context {L : StdLib}.

Definition convertFromBase64 (val : value) : value :=
  match val with
  | VString str =>
      match DecodeString str with
      | None => val
      | Some decoded => VString decoded
      end
  | _ => val
  end.

Definition convertFromFloat (val : value) : value :=
  match val with
  | VNumber v => VNumber v
  | VString v =>
      match ParseFloat v with
      | None => val
      | Some f => VNumber f
      end
  | _ => val
  end.

Definition convertFromDatetime (val : value) : value :=
  match val with
  | VString str =>
      match Parse_RFC3339 str with
      | None => val
      | Some t => VTime t
      end
  | _ => val
  end.

Definition identity_types : list string :=
  ["Int8"; "Int16"; "Int32"; "Int64"; "Uint8"; "Uint16"; "Uint32"; "Uint64";
   "Bool"; "Utf8"; "Uuid"; "Void"; "Null"; "EmptyList"; "Struct<>"; "Tuple<>"].

Definition getConverter (columnType : string) : value → value :=
  if bool_decide (columnType ∈ identity_types) then λ v, v
  else if bool_decide (columnType = "String") then convertFromBase64
  else if bool_decide (columnType ∈ ["Float"; "Double"]) then convertFromFloat
  else if bool_decide (columnType ∈ ["Date"; "Datetime"; "Timestamp"])
       then convertFromDatetime
  else λ v, v.

(** [col.(map[string]interface{})["type"].(string)] and the converter for
    it; [None] when one of the two assertions panics. *)
Definition column_converter (col : value) : option (value → value) :=
  match col with
  | VMap m =>
      match index m "type" with
      | VString colType => Some (getConverter colType)
      | _ => None
      end
  | _ => None
  end.

(** One row: a slice as long as [converters], nil beyond the cells of the
    row; [None] when [row] is not a slice or has more cells than there are
    converters (index out of range). *)
Definition convert_row (converters : list (value → value)) (row : value)
    : option (list value) :=
  match row with
  | VSlice cells =>
      if decide (length cells ≤ length converters)%nat
      then Some (zip_with (λ f v, f v) converters cells
                 ++ replicate (length converters - length cells) VNil)%list
      else None
  | _ => None
  end.

(** The document [convert] builds from the raw one; [None] when it
    panics. *)
Definition converted (raw : gmap string value) : option (gmap string value) :=
  match index raw "columns", index raw "rows" with
  | VSlice columns, VSlice rows =>
      converters ← mapM column_converter columns;
      convertedRows ← mapM (convert_row converters) rows;
      Some (<["columns" := VSlice columns]>
            (<["rows" := VRows convertedRows]> (∅ : gmap string value)))
  | _, _ => None
  end.

(** *** The [Results] object

    Maps are reference values: a [store] holds the map objects and a
    [Results] holds the addresses of its two maps ([None] for a nil map).
    Allocation takes a fresh address. *)

Record Results := {
  rawResults : option loc;
  results : option loc
}.

Definition NewYQResults (results : option loc) : Results :=
  {| rawResults := results; results := None |}.

(** The map behind a reference, for reading; a nil map reads as empty. *)
Definition deref (σ : store) (r : option loc) : option (gmap string value) :=
  match r with
  | None => Some ∅
  | Some l => σ !! l
  end.

(** [r.convert()]: the object and the store afterwards, [None] on a
    panic. *)
Definition convert (r : Results) (σ : store) : option (Results * store) :=
  match results r with
  | Some _ => Some (r, σ)
  | None =>
      raw ← deref σ (rawResults r);
      doc ← converted raw;
      let l := fresh (dom σ) in
      Some ({| rawResults := rawResults r; results := Some l |}, <[l := doc]> σ)
  end.

(** [r.Results()]: the reference it returns, the object and the store. *)
Definition Results_get (r : Results) (σ : store)
    : option (option loc * Results * store) :=
  '(r', σ') ← convert r σ;
  Some (results r', r', σ').

(** [r.RawResults()]. *)
Definition RawResults (r : Results) : option loc := rawResults r.

(** [r.ToTable()]. *)
Definition ToTable (r : Results) (σ : store)
    : option (list (list value) * Results * store) :=
  '(r', σ') ← convert r σ;
  doc ← deref σ' (results r');
  match index doc "rows" with
  | VRows rows => Some (rows, r', σ')
  | _ => None
  end.

(** [n] calls of [r.Results()] in a row: the references returned, the
    object and the store at the end. *)
Fixpoint Results_calls (n : nat) (r : Results) (σ : store)
    : option (list (option loc) * Results * store) :=
  match n with
  | O => Some ([], r, σ)
  | S n' =>
      '(d, r1, σ1) ← Results_get r σ;
      '(ds, r2, σ2) ← Results_calls n' r1 σ1;
      Some (d :: ds, r2, σ2)
  end.

End Decoder.

(** ** Polling: [WaitQueryToComplete] *)

(** What the world answers to one run of [WaitQueryToComplete]; [k] counts
    the iterations of its loop from zero.
    - [time_Since k]: the value of [time.Since(startTime)] in iteration [k];
    - [GetQueryStatus_result k queryID requestID]: how the call of
      [c.GetQueryStatus] of iteration [k] ends: [Some] of what it returns,
      [None] when it panics;
    - [StopQuery_result queryID idempotencyKey requestID]: how the call of
      [c.StopQuery] ends: [Some] of the error it returns, [None] when it
      panics;
    - [poll_select k d]: the [select] of iteration [k] over [ctx.Done()] and
      [time.After(d)], [Some e] when the context is done first with
      [ctx.Err() = e].
    [package_polls] below builds such a world from the package's own
    [GetQueryStatus] and [StopQuery] over transports. *)
Record PollEnv := {
  time_Since : nat → Duration;
  GetQueryStatus_result : nat → string → string → option (string * option error);
  StopQuery_result : string → string → string → option (option error);
  poll_select : nat → Duration → option error
}.

(** The calls of a run; a stop call is recorded with how it ended. *)
Inductive PollEvent :=
| EvStatus (queryID requestID : string)
| EvStop (queryID idempotencyKey requestID : string)
         (result : option (option error))
| EvSleep (d : Duration).

Definition is_running (status : string) : bool :=
  bool_decide (status = "RUNNING") || bool_decide (status = "PENDING").

(** [delay *= 2], then the cap at two seconds. *)
Definition next_delay (delay : Duration) : Duration :=
  let delay := Duration_mul delay 2 in
  if decide (2 * Second < delay) then 2 * Second else delay.

(** The loop.  [_ = c.StopQuery(...)] drops the error [StopQuery] returns;
    a panic of [StopQuery] or of [GetQueryStatus] is a panic of the
    caller. *)
Fixpoint WaitQueryToComplete_loop (E : PollEnv) (fuel k : nat)
    (queryID : string) (executionTimeout : Duration) (stopOnTimeout : bool)
    (delay : Duration)
    : outcome (string * option error) * list PollEvent :=
  match fuel with
  | O => (OutOfFuel, [])
  | S fuel' =>
      if decide (0 < executionTimeout ∧ executionTimeout < time_Since E k) then
        if stopOnTimeout then
          match StopQuery_result E queryID "" "" with
          | Some r =>
              (Returns ("", Some (FmtErr ("query " ++ queryID
                                          ++ " execution timeout"))),
               [EvStop queryID "" "" (Some r)])
          | None => (Panics, [EvStop queryID "" "" None])
          end
        else
          (Returns ("", Some (FmtErr ("query " ++ queryID
                                      ++ " execution timeout"))), [])
      else
        match GetQueryStatus_result E k queryID "" with
        | None => (Panics, [EvStatus queryID ""])
        | Some (_, Some err) => (Returns ("", Some err), [EvStatus queryID ""])
        | Some (status, None) =>
            if negb (is_running status)
            then (Returns (status, None), [EvStatus queryID ""])
            else
              match poll_select E k delay with
              | Some ctx_err =>
                  (Returns ("", Some ctx_err), [EvStatus queryID ""; EvSleep delay])
              | None =>
                  let '(r, tr) :=
                    WaitQueryToComplete_loop E fuel' (k + 1) queryID
                      executionTimeout stopOnTimeout (next_delay delay) in
                  (r, EvStatus queryID "" :: EvSleep delay :: tr)
              end
        end
  end.

(** [fuel] bounds the number of iterations of the [for] loop. *)
Definition WaitQueryToComplete (E : PollEnv) (fuel : nat) (queryID : string)
    (executionTimeout : Duration) (stopOnTimeout : bool)
    : outcome (string * option error) * list PollEvent :=
  WaitQueryToComplete_loop E fuel 0 queryID executionTimeout stopOnTimeout
    (200 * Millisecond).

(** ** Pagination: [GetQueryResultSet] *)

(** The arguments of one call of [c.GetQueryResultSetPage]. *)
Record PageCall := {
  pc_queryID : string;
  pc_resultSetIndex : Z;
  pc_offset : Z;
  pc_limit : Z;
  pc_rawFormat : bool;
  pc_requestID : string
}.

(** [GetQueryResultSetPage_result k call]: what the [k]-th call of
    [c.GetQueryResultSetPage], made with the arguments [call], returns. *)
Record PageEnv := {
  GetQueryResultSetPage_result : nat → PageCall → gmap string value * option error
}.

Section Pagination.
Context {L : StdLib}.

(** The [for] loop of [GetQueryResultSet]: it ends with the error it
    returns or with [columns] and [rows] at the [break]. *)
Fixpoint GetQueryResultSet_loop (E : PageEnv) (fuel k : nat)
    (queryID : string) (resultSetIndex : Z) (rawFormat : bool)
    (offset limit : Z) (columns : value) (rows : list value)
    : outcome (error + value * list value) * list PageCall :=
  match fuel with
  | O => (OutOfFuel, [])
  | S fuel' =>
      let call := {| pc_queryID := queryID; pc_resultSetIndex := resultSetIndex;
                     pc_offset := offset; pc_limit := limit;
                     pc_rawFormat := rawFormat; pc_requestID := "" |} in
      match GetQueryResultSetPage_result E k call with
      | (_, Some err) => (Returns (inl err), [call])
      | (part, None) =>
          let columns :=
            match columns with VNil => index part "columns" | _ => columns end in
          match index part "rows" with
          | VSlice r =>
              let rows := (rows ++ r)%list in
              if decide (Z.of_nat (length r) ≠ limit)
              then (Returns (inr (columns, rows)), [call])
              else
                let '(o, tr) :=
                  GetQueryResultSet_loop E fuel' (k + 1) queryID resultSetIndex
                    rawFormat (int_add offset limit) limit columns rows in
                (o, call :: tr)
          | _ => (Returns (inl (FmtErr "unexpected rows format")), [call])
          end
      end
  end.

(** The document assembled after the loop. *)
Definition assembled (columns : value) (rows : list value) : gmap string value :=
  <["columns" := columns]> (<["rows" := VSlice rows]> (∅ : gmap string value)).

(** [NewYQResults(result).Results()] on the fresh object is the conversion
    of [result] ([Results_fresh] below); a panic of the conversion is a
    panic of the call. *)
Definition GetQueryResultSet (E : PageEnv) (fuel : nat) (queryID : string)
    (resultSetIndex : Z) (rawFormat : bool)
    : outcome (gmap string value * option error) * list PageCall :=
  let offset := 0 in
  let limit := 1000 in
  match GetQueryResultSet_loop E fuel 0 queryID resultSetIndex rawFormat
          offset limit VNil [] with
  | (Returns (inl err), tr) => (Returns (∅, Some err), tr)
  | (Returns (inr (columns, rows)), tr) =>
      let result := assembled columns rows in
      if rawFormat then (Returns (result, None), tr)
      else
        match converted result with
        | Some doc => (Returns (doc, None), tr)
        | None => (Panics, tr)
        end
  | (Panics, tr) => (Panics, tr)
  | (OutOfFuel, tr) => (OutOfFuel, tr)
  end.

End Pagination.

(** ** A reference instance of the standard-library functions

    Small readers that agree with the Go functions on the inputs they
    accept: decimal literals [digits.digits] of at most fifteen characters,
    for which the quotient of the two exactly represented integers is the
    nearest [float64], and UTC timestamps [YYYY-MM-DDThh:mm:ssZ]; and the
    [%v] rendering of slices whose elements are nil, booleans, strings or
    such slices. *)

Definition digit_value (a : ascii) : option Z :=
  if is_digit a then Some (Z.of_nat (nat_of_ascii a) - 48) else None.

Fixpoint digits_value (acc : Z) (l : list ascii) : option Z :=
  match l with
  | [] => Some acc
  | a :: l' => d ← digit_value a; digits_value (10 * acc + d) l'
  end.

Definition is_dot (a : ascii) : bool := bool_decide (a = "."%char).

Definition float_of_Z (z : Z) : float := PrimFloat.of_uint63 (Uint63.of_Z z).

(** The digits of [l] as one integer and the number of them after the
    dot; [frac] is [None] before the dot. *)
Fixpoint read_decimal (m : Z) (frac : option nat) (l : list ascii)
    : option (Z * nat) :=
  match l with
  | [] => Some (m, default O frac)
  | a :: l' =>
      if is_dot a then
        match frac with
        | None => read_decimal m (Some O) l'
        | Some _ => None
        end
      else
        d ← digit_value a;
        read_decimal (10 * m + d) (S <$> frac) l'
  end.

Definition decimal_ParseFloat (s : string) : option float :=
  let l := list_ascii_of_string s in
  if bool_decide (l = []) || is_dot (default "."%char (head l))
     || (15 <? length l)%nat
  then None
  else
    '(m, k) ← read_decimal 0 None l;
    Some (PrimFloat.div (float_of_Z m) (float_of_Z (10 ^ Z.of_nat k))).

Definition utc_Parse_RFC3339 (s : string) : option Time :=
  match list_ascii_of_string s with
  | [y1; y2; y3; y4; c1; m1; m2; c2; d1; d2; c3; h1; h2; c4; n1; n2; c5;
     s1; s2; c6] =>
      if bool_decide ([c1; c2; c3; c4; c5; c6]
                      = list_ascii_of_string "--T::Z")
      then
        y ← digits_value 0 [y1; y2; y3; y4];
        m ← digits_value 0 [m1; m2];
        d ← digits_value 0 [d1; d2];
        h ← digits_value 0 [h1; h2];
        n ← digits_value 0 [n1; n2];
        sec ← digits_value 0 [s1; s2];
        if bool_decide (1 ≤ m ≤ 12 ∧ 1 ≤ d ≤ 28 ∧ h ≤ 23 ∧ n ≤ 59 ∧ sec ≤ 59)%Z
        then Some {| year := y; month := m; day := d; hour := h; minute := n;
                     second := sec; nanosecond := 0; zone_offset := 0 |}
        else None
      else None
  | _ => None
  end.

(** [%v] of a slice: the elements, rendered by [%v], between brackets and
    separated by spaces.  The instance is used on slices of nil, booleans
    and strings, and slices of those; it has no rendering of its own for
    numbers, times and maps and prints a question mark there. *)
Fixpoint render (v : value) : string :=
  match v with
  | VNil => "<nil>"
  | VBool true => "true"
  | VBool false => "false"
  | VString s => s
  | VSlice l =>
      "[" ++ (fix go (l : list value) : string :=
                match l with
                | [] => ""
                | [x] => render x
                | x :: l' => render x ++ " " ++ go l'
                end) l ++ "]"
  | VRows rows =>
      "[" ++ (fix go_rows (rows : list (list value)) : string :=
                match rows with
                | [] => ""
                | r :: rows' =>
                    "[" ++ (fix go (l : list value) : string :=
                              match l with
                              | [] => ""
                              | [x] => render x
                              | x :: l' => render x ++ " " ++ go l'
                              end) r ++ "]"
                    ++ match rows' with [] => "" | _ => " " ++ go_rows rows' end
                end) rows ++ "]"
  | _ => "?"
  end.

Definition ReferenceLib : StdLib :=
  {| ParseFloat := decimal_ParseFloat;
     Parse_RFC3339 := utc_Parse_RFC3339;
     Sprint_other := render;
     decode_string_field := λ tag body,
       match body with
       | Some (VMap m) =>
           match index m tag with
           | VString s => (s, None)
           | VNil => ("", None)
           | _ => ("", Some (LibErr "json" "cannot unmarshal into Go struct field"))
           end
       | Some VNil => ("", None)
       | Some _ => ("", Some (LibErr "json" "cannot unmarshal into Go value"))
       | None => ("", Some (LibErr "json" "syntax error"))
       end |}.

(** ** Vocabulary for traces *)

(** The requests handed to the transport, in order. *)
Fixpoint requests (tr : list Event) : list Request :=
  match tr with
  | [] => []
  | EvDo req :: tr' => req :: requests tr'
  | EvWait _ :: tr' => requests tr'
  end.

(** The number of requests handed to the transport. *)
Definition attempts (tr : list Event) : nat := length (requests tr).

(** The waits, in order. *)
Fixpoint waits (tr : list Event) : list Duration :=
  match tr with
  | [] => []
  | EvDo _ :: tr' => waits tr'
  | EvWait d :: tr' => d :: waits tr'
  end.

(** [k] failed attempts, numbered from [i], each followed by its wait of
    [attempt number] seconds. *)
Fixpoint failed_attempts (req : Request) (i k : nat) : list Event :=
  match k with
  | O => []
  | S k' =>
      EvDo req :: EvWait (Z.of_nat (i + 1) * Second)
      :: failed_attempts req (i + 1) k'
  end.

Definition is_DoError (r : DoResult) : Prop :=
  match r with DoError _ => True | DoResponse _ => False end.

(** A transport that never answers and a context that is never done. *)
Definition dead_transport : Transport :=
  {| NewRequest_err := λ _ _, None;
     client_Do := λ _ _, DoError (LibErr "net/http" "connection refused");
     ctx_select := λ _ _, None |}.

Definition error_500 : Response :=
  {| StatusCode := 500; BodyText := "Internal Server Error";
     BodyReadErr := None; BodyJSON := None |}.

(** A transport whose first two attempts fail and whose third is answered
    with an HTTP error status. *)
Definition flaky_transport : Transport :=
  {| NewRequest_err := λ _ _, None;
     client_Do := λ i _,
       if (i <? 2)%nat then DoError (LibErr "net/http" "connection reset")
       else DoResponse error_500;
     ctx_select := λ _ _, None |}.

(** The request [doRequest] builds for a GET of a local URL without
    headers. *)
Definition probe : Request := NewRequest "GET" "http://localhost/" None None.

(** ** Vocabulary for response bodies *)

(** The body decodes into the map [m]: it is the JSON object [m], or it is
    [null] and the map stays nil. *)
Definition decodes_as_object (body : option value) (m : gmap string value) : Prop :=
  body = Some (VMap m) ∨ (body = Some VNil ∧ m = ∅).

(** The error [validateHTTPError] makes from the status code alone. *)
Definition bare_error (code : Z) : error :=
  YQErr {| Message := "Error occurred: " ++ pretty code;
           Status := ""; Msg := ""; Details := VNil |}.

(** The body [{"status":"BAD_REQUEST","message":"x","details":null}]. *)
Definition bad_request_body : gmap string value :=
  <["status" := VString "BAD_REQUEST"]>
    (<["message" := VString "x"]> (<["details" := VNil]> ∅)).

Definition bad_request : Response :=
  {| StatusCode := 400; BodyText := ""; BodyReadErr := None;
     BodyJSON := Some (VMap bad_request_body) |}.

(** A 404 whose body is [{"message":"x"}], without a status field. *)
Definition message_only : Response :=
  {| StatusCode := 404; BodyText := ""; BodyReadErr := None;
     BodyJSON := Some (VMap (<["message" := VString "x"]> ∅)) |}.

(** A 500 whose body is the JSON array [[]]. *)
Definition array_body : Response :=
  {| StatusCode := 500; BodyText := ""; BodyReadErr := None;
     BodyJSON := Some (VSlice []) |}.

(** An argument as a map entry: no entry for the empty string. *)
Definition nonempty (s : string) : option string :=
  if decide (s = "") then None else Some s.

Definition sample_config : ClientConfig :=
  NewClient {| Token := "t1.secret"; Project := "b1gproject"; UserAgent := "";
               Endpoint := ""; WebBaseURL := ""; TokenPrefix := "" |}.

(** A transport that answers every request with an empty 200. *)
Definition ok_transport : Transport :=
  {| NewRequest_err := λ _ _, None;
     client_Do := λ _ _,
       DoResponse {| StatusCode := 200; BodyText := "openapi: 3.0.0";
                     BodyReadErr := None; BodyJSON := None |};
     ctx_select := λ _ _, None |}.

(** The trace of an operation that sends the credential: every request
    handed to the transport has a header map with the token under
    [Authorization]. *)
Definition authorized (c : ClientConfig) (tr : list Event) : Prop :=
  ∀ req, req ∈ requests tr →
    ∃ h, ReqHeader req = Some h ∧
         h !! "Authorization" = Some [TokenPrefix c ++ Token c].

(** ** Vocabulary for polling *)

(** The delay before poll [k + 1]: 200ms doubled [k] times, at most 2s. *)
Definition backoff (k : nat) : Duration :=
  Z.min (200 * Millisecond * 2 ^ Z.of_nat k) (2 * Second).

(** [n] polls that find the query running or pending, numbered from [k],
    each followed by its sleep. *)
Fixpoint pending_polls (queryID : string) (k n : nat) : list PollEvent :=
  match n with
  | O => []
  | S n' =>
      EvStatus queryID "" :: EvSleep (backoff k)
      :: pending_polls queryID (k + 1) n'
  end.

(** The number of status polls, the sleeps and the results of the stop
    calls of a trace. *)
Fixpoint status_polls (tr : list PollEvent) : nat :=
  match tr with
  | [] => O
  | EvStatus _ _ :: tr' => S (status_polls tr')
  | _ :: tr' => status_polls tr'
  end.

Fixpoint sleeps (tr : list PollEvent) : list Duration :=
  match tr with
  | [] => []
  | EvSleep d :: tr' => d :: sleeps tr'
  | _ :: tr' => sleeps tr'
  end.

Fixpoint stop_calls (tr : list PollEvent) : list (option (option error)) :=
  match tr with
  | [] => []
  | EvStop _ _ _ r :: tr' => r :: stop_calls tr'
  | _ :: tr' => stop_calls tr'
  end.

(** The poll of iteration [j] finds the query running or pending. *)
Definition still_running (E : PollEnv) (queryID : string) (j : nat) : Prop :=
  ∃ s, GetQueryStatus_result E j queryID "" = Some (s, None)
       ∧ is_running s = true.

Definition timeout_error (queryID : string) : error :=
  FmtErr ("query " ++ queryID ++ " execution timeout").

(** A query that is reported running twice and then completed, under a
    clock that advances by a second per iteration. *)
Definition completes_third : PollEnv :=
  {| time_Since := λ k, Z.of_nat k * Second;
     GetQueryStatus_result := λ k _ _,
       Some (if (k <? 2)%nat then "RUNNING" else "COMPLETED", None);
     StopQuery_result := λ _ _ _, Some None;
     poll_select := λ _ _, None |}.


(** ** Vocabulary for pagination *)

(** The [k]-th call [GetQueryResultSet] makes when it gets that far. *)
Definition page_call (queryID : string) (resultSetIndex : Z) (rawFormat : bool)
    (k : nat) : PageCall :=
  {| pc_queryID := queryID; pc_resultSetIndex := resultSetIndex;
     pc_offset := 1000 * Z.of_nat k; pc_limit := 1000;
     pc_rawFormat := rawFormat; pc_requestID := "" |}.

(** The page has a slice under [rows]; the rows of such a page. *)
Definition has_rows (p : gmap string value) : Prop :=
  ∃ r, index p "rows" = VSlice r.

Definition rows_of (p : gmap string value) : list value :=
  match index p "rows" with VSlice r => r | _ => [] end.

(** [columns] after the pages [ps] went by: it keeps the first value that
    is not nil. *)
Fixpoint columns_after (columns : value) (ps : list (gmap string value)) : value :=
  match ps with
  | [] => columns
  | p :: ps' =>
      columns_after
        (match columns with VNil => index p "columns" | _ => columns end) ps'
  end.

(** A page of [n] empty rows with the given [columns] entry. *)
Definition page_of (n : nat) (columns : option value) : gmap string value :=
  let p : gmap string value := <["rows" := VSlice (replicate n (VSlice []))]> ∅ in
  match columns with
  | Some cols => <["columns" := cols]> p
  | None => p
  end.

Definition no_columns : value := VSlice [].




(** ** Sample result documents *)

Definition column (name type : string) : value :=
  VMap (<["name" := VString name]> (<["type" := VString type]> ∅)).

(** One String column and one row holding the base64 text of [hello]. *)
Definition hello_document : gmap string value :=
  <["columns" := VSlice [column "greeting" "String"]]>
    (<["rows" := VSlice [VSlice [VString "aGVsbG8="]]]> ∅).

Definition hello_store : store := <[1%positive := hello_document]> ∅.

Definition new_year : Time :=
  {| year := 2024; month := 1; day := 1; hour := 0; minute := 0; second := 0;
     nanosecond := 0; zone_offset := 0 |}.

(** ** Proof automation *)

(** For an operation built on [doRequest]: a request in its trace is the
    request it builds; [lem] is the lemma that says so for [doRequest]. *)
Ltac requests_of_operation lem :=
  let Hin := fresh "Hin" in
  intros Hin;
  match type of Hin with
  | context [doRequest ?T ?m ?u ?h ?b] =>
      apply (lem T m u h b);
      destruct (doRequest T m u h b); exact Hin
  end.

(** ** [WaitQueryToSucceed] *)

(** The world of one run of [WaitQueryToSucceed]: that of its
    [WaitQueryToComplete] and what [c.GetQuery] returns. *)
Record SucceedEnv := {
  se_poll : PollEnv;
  GetQuery_result : string → string → gmap string value * option error
}.

Inductive SucceedEvent :=
| SePoll (e : PollEvent)                  (* an event of WaitQueryToComplete *)
| SeGetQuery (queryID requestID : string).

Section Succeed.
Context {L : StdLib}.

Definition WaitQueryToSucceed (E : SucceedEnv) (fuel : nat) (queryID : string)
    (executionTimeout : Duration) (stopOnTimeout : bool)
    : outcome (Z * option error) * list SucceedEvent :=
  match WaitQueryToComplete (se_poll E) fuel queryID executionTimeout
          stopOnTimeout with
  | (Returns (_, Some err), tr) => (Returns (0, Some err), SePoll <$> tr)
  | (Returns (status, None), tr) =>
      let tr := ((SePoll <$> tr) ++ [SeGetQuery queryID ""])%list in
      match GetQuery_result E queryID "" with
      | (_, Some err) => (Returns (0, Some err), tr)
      | (query, None) =>
          if decide (status ≠ "COMPLETED") then
            let issues :=
              match index query "issues" with VSlice l => l | _ => [] end in
            (Returns (0, Some (FmtErr ("query " ++ queryID
                                        ++ " failed with issues="
                                        ++ Sprint (VSlice issues)))), tr)
          else
            match index query "result_sets" with
            | VSlice resultSets => (Returns (Z.of_nat (length resultSets), None), tr)
            | _ => (Returns (0, Some (FmtErr "unexpected result_sets format")), tr)
            end
      end
  | (Panics, tr) => (Panics, SePoll <$> tr)
  | (OutOfFuel, tr) => (OutOfFuel, SePoll <$> tr)
  end.

(** ** [GetQueryAllResultSets] *)

(** The [for] loop over the result sets: [n] iterations are left and [i]
    is the index; [fuel] bounds the loop of each [GetQueryResultSet]. *)
Fixpoint GetQueryAllResultSets_loop (E : PageEnv) (fuel n : nat) (i : Z)
    (queryID : string) (rawFormat : bool) (results : list value)
    : outcome (value * option error) * list PageCall :=
  match n with
  | O => (Returns (VSlice results, None), [])
  | S n' =>
      match GetQueryResultSet E fuel queryID i rawFormat with
      | (Returns (_, Some err), tr) => (Returns (VNil, Some err), tr)
      | (Returns (r, None), tr) =>
          let '(o, tr') :=
            GetQueryAllResultSets_loop E fuel n' (i + 1) queryID rawFormat
              (results ++ [VMap r])%list in
          (o, (tr ++ tr')%list)
      | (Panics, tr) => (Panics, tr)
      | (OutOfFuel, tr) => (OutOfFuel, tr)
      end
  end.

(** The result is an [interface{}]: the map of the only result set, or
    the slice of the maps. *)
Definition GetQueryAllResultSets (E : PageEnv) (fuel : nat) (queryID : string)
    (resultSetCount : Z) (rawFormat : bool)
    : outcome (value * option error) * list PageCall :=
  if decide (resultSetCount = 1) then
    match GetQueryResultSet E fuel queryID 0 rawFormat with
    | (Returns (r, err), tr) => (Returns (VMap r, err), tr)
    | (Panics, tr) => (Panics, tr)
    | (OutOfFuel, tr) => (OutOfFuel, tr)
    end
  else
    GetQueryAllResultSets_loop E fuel (Z.to_nat resultSetCount) 0 queryID
      rawFormat [].

End Succeed.

(** ** More vocabulary *)

(** The time a run of [doRequest] spends waiting. *)
Definition total_wait (tr : list Event) : Duration := foldr Z.add 0 (waits tr).

(** A column descriptor [convert] accepts: a map with a string under
    [type]. *)
Definition typed_column (col : value) : Prop :=
  ∃ m colType, col = VMap m ∧ index m "type" = VString colType.

(** A row [convert] accepts for [n] columns: a slice of at most [n]
    cells. *)
Definition fitting_row (n : nat) (row : value) : Prop :=
  ∃ cells, row = VSlice cells ∧ (length cells ≤ n)%nat.

(** The bytes of [s] that [DecodeString] looks at. *)
Definition significant (s : string) : list ascii :=
  filter (λ a, is_newline a = false) (list_ascii_of_string s).

(** A configuration with every optional field empty. *)
Definition bare_config : ClientConfig :=
  {| Token := "t1.secret"; Project := ""; UserAgent := ""; Endpoint := "";
     WebBaseURL := ""; TokenPrefix := "" |}.

(** A query that failed, as [GetQuery] reports it, and one that completed
    with two result sets. *)
Definition failed_query : gmap string value :=
  <["issues" := VSlice [VString "syntax error"]]> (<["result_sets" := VSlice []]> ∅).

Definition completed_query : gmap string value :=
  <["result_sets" := VSlice [VMap ∅; VMap ∅]]> ∅.

Definition succeeds_third : SucceedEnv :=
  {| se_poll := completes_third; GetQuery_result := λ _ _, (completed_query, None) |}.

(** A backend whose every page has 1000 rows. *)
Definition endless_pages : PageEnv :=
  {| GetQueryResultSetPage_result := λ _ _, (page_of 1000 (Some no_columns), None) |}.

(** A backend whose only page has three rows and no [columns]. *)
Definition columnless_page : PageEnv :=
  {| GetQueryResultSetPage_result := λ _ _, (page_of 3 None, None) |}.

(** A backend whose every result set is one page of two rows. *)
Definition short_pages : PageEnv :=
  {| GetQueryResultSetPage_result := λ _ _, (page_of 2 (Some no_columns), None) |}.

(** A query whose status cannot be fetched the third time. *)
Definition poll_fails_third : PollEnv :=
  {| time_Since := λ k, Z.of_nat k * Second;
     GetQueryStatus_result := λ k _ _,
       if (k <? 2)%nat then Some ("RUNNING", None)
       else Some ("", Some (YQErr {| Message := "Error occurred: 503";
                                     Status := ""; Msg := ""; Details := VNil |}));
     StopQuery_result := λ _ _ _, Some None;
     poll_select := λ _ _, None |}.

(** A query that stays running while the context is done during the
    second sleep. *)
Definition cancelled_second : PollEnv :=
  {| time_Since := λ k, Z.of_nat k * Second;
     GetQueryStatus_result := λ _ _ _, Some ("RUNNING", None);
     StopQuery_result := λ _ _ _, Some None;
     poll_select := λ k _,
       if (k <? 1)%nat then None else Some (LibErr "context" "context canceled") |}.

(** The configuration [c] with another project. *)
Definition with_project (project : string) (c : ClientConfig) : ClientConfig :=
  {| Token := Token c; Project := project; UserAgent := UserAgent c;
     Endpoint := Endpoint c; WebBaseURL := WebBaseURL c;
     TokenPrefix := TokenPrefix c |}.

(** A transport whose first answer is the given response. *)
Definition answers (resp : Response) : Transport :=
  {| NewRequest_err := λ _ _, None;
     client_Do := λ _ _, DoResponse resp;
     ctx_select := λ _ _, None |}.

Definition response (code : Z) (json : option value) : Response :=
  {| StatusCode := code; BodyText := ""; BodyReadErr := None; BodyJSON := json |}.

(** The run fetched the query document. *)
Definition asks_query (tr : list SucceedEvent) : Prop :=
  ∃ queryID requestID, SeGetQuery queryID requestID ∈ tr.

(** The run of a query that ends FAILED. *)
Definition fails_first : SucceedEnv :=
  {| se_poll :=
       {| time_Since := λ k, Z.of_nat k * Second;
          GetQueryStatus_result := λ _ _ _, Some ("FAILED", None);
          StopQuery_result := λ _ _ _, Some None;
          poll_select := λ _ _, None |};
     GetQuery_result := λ _ _, (failed_query, None) |}.

(** ** Polling over the package's own operations *)

(** How a call of an operation ends, for its caller: what it returns, or
    a panic.  (An operation that sends one request always ends.) *)
Definition ends {A : Type} (o : outcome A) : option A :=
  match o with
  | Returns a => Some a
  | Panics => None
  | OutOfFuel => None
  end.

(** The world of a run of [WaitQueryToComplete] in which [c.GetQueryStatus]
    and [c.StopQuery] are the package's: the status poll of iteration [k]
    runs over the transport [poll_transport k], the stop call over
    [stop_transport]. *)
Definition package_polls {L : StdLib} (c : ClientConfig)
    (clock : nat → Duration) (poll_transport : nat → Transport)
    (stop_transport : Transport) (select : nat → Duration → option error)
    : PollEnv :=
  {| time_Since := clock;
     GetQueryStatus_result := λ k queryID requestID,
       ends (GetQueryStatus (poll_transport k) c queryID requestID).1;
     StopQuery_result := λ queryID idempotencyKey requestID,
       ends (StopQuery stop_transport c queryID idempotencyKey requestID).1;
     poll_select := select |}.

(** The body [{"status":"RUNNING"}] on a 200. *)
Definition running_response : Response :=
  response 200 (Some (VMap (<["status" := VString "RUNNING"]> ∅))).

(** A query that stays running, the clock advancing by a second per
    iteration, while the network is down for the stop call. *)
Definition stop_unreachable : PollEnv :=
  package_polls (L := ReferenceLib) sample_config (λ k, Z.of_nat k * Second)
    (λ _, answers running_response) dead_transport (λ _ _, None).

(** The same query when the stop call is answered with a 204, and with a
    500. *)
Definition stop_accepted : PollEnv :=
  package_polls (L := ReferenceLib) sample_config (λ k, Z.of_nat k * Second)
    (λ _, answers running_response) (answers (response 204 None)) (λ _ _, None).

Definition stop_refused : PollEnv :=
  package_polls (L := ReferenceLib) sample_config (λ k, Z.of_nat k * Second)
    (λ _, answers running_response) (answers error_500) (λ _ _, None).

(** ** What is known of the standard parsers

    [strconv.ParseFloat] returns the [float64] nearest to a decimal literal,
    and [time.Parse] with the RFC 3339 layout reads a UTC timestamp into its
    civil fields: on the inputs the readers [decimal_ParseFloat] and
    [utc_Parse_RFC3339] accept, the library functions return what these
    compute. *)
Class StdLibLaws (L : StdLib) : Prop := {
  ParseFloat_decimal :
    ∀ s f, decimal_ParseFloat s = Some f → ParseFloat s = Some f;
  Parse_RFC3339_utc :
    ∀ s t, utc_Parse_RFC3339 s = Some t → Parse_RFC3339 s = Some t
}.

(** * Properties *)

(** ** Arithmetic of durations *)

Lemma wrap64_small (z : Z) : - 2 ^ 63 ≤ z < 2 ^ 63 → wrap64 z = z.
Proof.
  intros Hz. unfold wrap64.
  rewrite Z.mod_small by lia. lia.
Qed.

Lemma TimeBetweenRetries_second : TimeBetweenRetries = Second.
Proof. reflexivity. Qed.

Lemma retry_wait (i : nat) :
  (i < 1000)%nat →
  Duration_mul TimeBetweenRetries (Z.of_nat (i + 1)) = Z.of_nat (i + 1) * Second.
Proof.
  intros Hi. rewrite TimeBetweenRetries_second. unfold Duration_mul, Second.
  rewrite wrap64_small by lia. lia.
Qed.

(** ** [doRequest] *)

Lemma requests_app (tr1 tr2 : list Event) :
  requests (tr1 ++ tr2) = (requests tr1 ++ requests tr2)%list.
Proof. induction tr1 as [|[] tr1 IH]; cbn; [done|by rewrite IH|done]. Qed.

Lemma waits_app (tr1 tr2 : list Event) :
  waits (tr1 ++ tr2) = (waits tr1 ++ waits tr2)%list.
Proof. induction tr1 as [|[] tr1 IH]; cbn; [done|done|by rewrite IH]. Qed.

Section DoRequest.
Variable T : Transport.
Variables (method url : string) (headers : option Header).
Variable body : option (gmap string string).

Let req : Request := NewRequest method url headers body.

(** As long as attempts fail and waits run out, the loop goes on. *)
Lemma doRequest_loop_failed (k n i : nat) (err : option error) :
  NewRequest_err T method url = None →
  (i + k < 1000)%nat →
  (∀ j, (i ≤ j < i + k)%nat → is_DoError (client_Do T j req)) →
  (∀ j, (i ≤ j < i + k)%nat → ctx_select T j (Z.of_nat (j + 1) * Second) = None) →
  doRequest_loop T (k + n) i method url headers body err
  = (let '(r, tr) := doRequest_loop T n (i + k) method url headers body err in
     (r, (failed_attempts req i k ++ tr)%list)).
Proof.
  intros Hnew. revert i.
  induction k as [|k IH]; intros i Hi Hdo Hsel.
  - simpl. rewrite Nat.add_0_r. by destruct (doRequest_loop _ _ _ _ _ _ _ _).
  - cbn [Nat.add doRequest_loop]. rewrite Hnew. fold req.
    pose proof (Hdo i ltac:(lia)) as Hd.
    destruct (client_Do T i req) as [|e]; [done|].
    rewrite retry_wait by lia. rewrite (Hsel i) by lia.
    rewrite IH; [|lia|intros; apply Hdo; lia|intros; apply Hsel; lia].
    replace (i + 1 + k)%nat with (i + S k)%nat by lia.
    by destruct (doRequest_loop _ _ _ _ _ _ _ _).
Qed.

Lemma attempts_failed_attempts (i k : nat) : attempts (failed_attempts req i k) = k.
Proof.
  revert i. induction k as [|k IH]; intros i; [done|].
  unfold attempts in *. cbn. by rewrite IH.
Qed.

Lemma waits_failed_attempts (i k : nat) :
  waits (failed_attempts req i k) = (λ j, Z.of_nat (j + 1) * Second) <$> seq i k.
Proof.
  revert i. induction k as [|k IH]; intros i; [done|].
  cbn. rewrite IH. by replace (i + 1)%nat with (S i) by lia.
Qed.

Lemma attempts_loop (n i : nat) (err : option error) :
  (attempts (doRequest_loop T n i method url headers body err).2 ≤ n)%nat.
Proof.
  revert i. induction n as [|n IH]; intros i; [done|].
  cbn [doRequest_loop].
  unfold attempts in *.
  destruct (NewRequest_err T method url); [cbn; lia|].
  destruct (client_Do T i _); [cbn; lia|].
  destruct (ctx_select T i _); [cbn; lia|].
  specialize (IH (i + 1)%nat).
  destruct (doRequest_loop _ _ _ _ _ _ _ _) as [r tr].
  cbn in *. lia.
Qed.

End DoRequest.

(** C1 (the code departs from the claim).  The claim: when every attempt
    fails with a transport error, [doRequest] returns the transport error of
    the last attempt.  The code: when all five attempts fail and every wait
    runs out, [doRequest] returns a nil response together with a nil error,
    after five requests and waits of one to five seconds; the errors of the
    attempts went to the [err] of the loop body and the [err] that is
    returned was never assigned. *)
Theorem doRequest_exhausted_returns_nil_error
    (T : Transport) (method url : string) (headers : option Header)
    (body : option (gmap string string)) :
  NewRequest_err T method url = None →
  (∀ j, (j < 5)%nat →
        is_DoError (client_Do T j (NewRequest method url headers body))) →
  (∀ j, (j < 5)%nat → ctx_select T j (Z.of_nat (j + 1) * Second) = None) →
  doRequest T method url headers body
  = ((None, None), failed_attempts (NewRequest method url headers body) 0 5).
Proof.
  intros Hnew Hdo Hsel. unfold doRequest.
  change (MaxRetryForSession + 1)%nat with (5 + 0)%nat.
  rewrite doRequest_loop_failed; [|done|lia|..].
  - cbn [doRequest_loop]. by rewrite app_nil_r.
  - intros j Hj. apply Hdo. lia.
  - intros j Hj. apply Hsel. lia.
Qed.

Lemma doRequest_exhausted_witness :
  NewRequest_err dead_transport "GET" "http://localhost/" = None ∧
  doRequest dead_transport "GET" "http://localhost/" None None
  = ((None, None),
     failed_attempts (NewRequest "GET" "http://localhost/" None None) 0 5).
Proof.
  split; [reflexivity|].
  apply (doRequest_exhausted_returns_nil_error dead_transport
           "GET" "http://localhost/" None None).
  - reflexivity.
  - intros j _. exact I.
  - intros j _. reflexivity.
Defined.

(** C2.  [doRequest] hands at most five requests to the transport.  When
    the attempts before attempt [k] fail and their waits run out, a
    response to attempt [k] is returned at once, whatever its status code,
    and nothing more is sent; the wait after the failed attempt number [j]
    (counted from one) is [j] seconds, so the waits between consecutive
    attempts are 1s, 2s, 3s and 4s; and when the context is done during a
    wait, the context's error is returned and nothing more is sent. *)
Theorem doRequest_retry_policy
    (T : Transport) (method url : string) (headers : option Header)
    (body : option (gmap string string)) :
  (attempts (doRequest T method url headers body).2 ≤ MaxRetryForSession + 1)%nat ∧
  (∀ k : nat,
     (k ≤ MaxRetryForSession)%nat →
     NewRequest_err T method url = None →
     (∀ j, (j < k)%nat →
           is_DoError (client_Do T j (NewRequest method url headers body))) →
     (∀ j, (j < k)%nat → ctx_select T j (Z.of_nat (j + 1) * Second) = None) →
     (∀ resp,
        client_Do T k (NewRequest method url headers body) = DoResponse resp →
        doRequest T method url headers body
        = ((Some resp, None),
           (failed_attempts (NewRequest method url headers body) 0 k
            ++ [EvDo (NewRequest method url headers body)])%list) ∧
        attempts (doRequest T method url headers body).2 = (k + 1)%nat ∧
        waits (doRequest T method url headers body).2
        = (λ j, Z.of_nat (j + 1) * Second) <$> seq 0 k) ∧
     (∀ ctx_err,
        is_DoError (client_Do T k (NewRequest method url headers body)) →
        ctx_select T k (Z.of_nat (k + 1) * Second) = Some ctx_err →
        doRequest T method url headers body
        = ((None, Some ctx_err),
           (failed_attempts (NewRequest method url headers body) 0 k
            ++ [EvDo (NewRequest method url headers body);
                EvWait (Z.of_nat (k + 1) * Second)])%list))).
Proof.
  set (req := NewRequest method url headers body).
  split; [apply attempts_loop|].
  intros k Hk Hnew Hdo Hsel. unfold MaxRetryForSession in Hk.
  assert (Hrun : doRequest T method url headers body
    = (let '(r, tr) := doRequest_loop T (S (4 - k)) k method url headers body None in
       (r, (failed_attempts req 0 k ++ tr)%list))).
  { unfold doRequest.
    replace (MaxRetryForSession + 1)%nat with (k + S (4 - k))%nat
      by (unfold MaxRetryForSession; lia).
    rewrite doRequest_loop_failed; [done|done|lia|..].
    - intros j Hj. apply Hdo. lia.
    - intros j Hj. apply Hsel. lia. }
  split.
  - intros resp Hresp.
    assert (Heq : doRequest T method url headers body
      = ((Some resp, None), (failed_attempts req 0 k ++ [EvDo req])%list)).
    { rewrite Hrun. cbn [doRequest_loop]. rewrite Hnew. fold req.
      by rewrite Hresp. }
    rewrite Heq. cbn [snd]. split; [done|]. split.
    + pose proof (attempts_failed_attempts method url headers body 0 k) as Hk'.
      unfold attempts in *. rewrite requests_app, length_app.
      fold req in Hk'. by rewrite Hk'.
    + unfold req. rewrite waits_app, waits_failed_attempts. cbn.
      by rewrite app_nil_r.
  - intros ctx_err Herr Hctx. rewrite Hrun. cbn [doRequest_loop].
    rewrite Hnew. fold req.
    destruct (client_Do T k req) as [|e]; [done|].
    rewrite retry_wait by lia. by rewrite Hctx.
Qed.

Lemma doRequest_retry_policy_witness :
  doRequest flaky_transport "GET" "http://localhost/" None None
  = ((Some error_500, None),
     [EvDo probe; EvWait (1 * Second); EvDo probe; EvWait (2 * Second);
      EvDo probe])
  ∧ waits (doRequest flaky_transport "GET" "http://localhost/" None None).2
    = [1 * Second; 2 * Second].
Proof.
  destruct (doRequest_retry_policy flaky_transport
              "GET" "http://localhost/" None None) as [_ H].
  destruct (H 2%nat) as [Hresp _].
  - unfold MaxRetryForSession. lia.
  - reflexivity.
  - intros j Hj. destruct j as [|[|j]]; [exact I|exact I|lia].
  - intros j Hj. reflexivity.
  - destruct (Hresp error_500) as (Hrun & _ & Hwaits); [reflexivity|].
    split; [exact Hrun|exact Hwaits].
Defined.

(** Every request of a run of [doRequest] is the one built from its
    arguments, and one is sent whenever the request can be built. *)
Lemma requests_doRequest_loop (T : Transport) (n i : nat) (method url : string)
    (headers : option Header) (body : option (gmap string string))
    (err : option error) (req : Request) :
  req ∈ requests (doRequest_loop T n i method url headers body err).2 →
  req = NewRequest method url headers body.
Proof.
  revert i. induction n as [|n IH]; intros i; cbn [doRequest_loop].
  - cbn. by intros ?%elem_of_nil.
  - destruct (NewRequest_err T method url); [cbn; by intros ?%elem_of_nil|].
    destruct (client_Do T i _).
    { cbn. by intros ->%list_elem_of_singleton. }
    destruct (ctx_select T i _).
    { cbn. by intros ->%list_elem_of_singleton. }
    specialize (IH (i + 1)%nat).
    destruct (doRequest_loop _ _ _ _ _ _ _ _) as [r tr].
    cbn in *. intros [->|Hin]%elem_of_cons; [done|by apply IH].
Qed.

Lemma requests_doRequest (T : Transport) (method url : string)
    (headers : option Header) (body : option (gmap string string))
    (req : Request) :
  req ∈ requests (doRequest T method url headers body).2 →
  req = NewRequest method url headers body.
Proof. apply requests_doRequest_loop. Qed.

Lemma doRequest_loop_sends (T : Transport) (n i : nat) (method url : string)
    (headers : option Header) (body : option (gmap string string))
    (err : option error) :
  NewRequest_err T method url = None →
  NewRequest method url headers body
  ∈ requests (doRequest_loop T (S n) i method url headers body err).2.
Proof.
  intros Hnew. cbn [doRequest_loop]. rewrite Hnew.
  destruct (client_Do T i _); [cbn; apply list_elem_of_here|].
  destruct (ctx_select T i _); [cbn; apply list_elem_of_here|].
  destruct (doRequest_loop _ _ _ _ _ _ _ _) as [r tr].
  cbn. apply list_elem_of_here.
Qed.

Lemma doRequest_sends (T : Transport) (method url : string)
    (headers : option Header) (body : option (gmap string string)) :
  NewRequest_err T method url = None →
  NewRequest method url headers body
  ∈ requests (doRequest T method url headers body).2.
Proof. apply doRequest_loop_sends. Qed.

(** ** [validateHTTPError] *)

Section Validation.
Context {L : StdLib}.

Lemma decode_map_object (body : option value) (m : gmap string value) :
  decodes_as_object body m → decode_map body = (m, None).
Proof. by intros [->|[-> ->]]. Qed.

Lemma decode_map_other (body : option value) :
  (∀ m, ¬ decodes_as_object body m) → ∃ m e, decode_map body = (m, Some e).
Proof.
  intros Hno. unfold decodes_as_object in Hno.
  destruct body as [[]|]; cbn; eauto.
  - exfalso. apply (Hno ∅). by right.
  - exfalso. eapply Hno. by left.
Qed.

(** C8, as amended.  A response with the expected status gives no error.
    A response with another status gives a [YQError]: when the body decodes
    as a JSON object (or is [null]), [Details] is the body's [details]
    field and [Status] and [Msg] are the [%v] renderings of its [status] and
    [message] fields, which is the field itself when it is a string and
    ["<nil>"] when it is absent or null; when the body does not decode as a
    JSON object, because it is not JSON or is JSON of another kind, the
    error carries the status code alone. *)
Theorem validateHTTPError_spec (resp : Response) (expectedCode : Z) :
  (StatusCode resp = expectedCode → validateHTTPError resp expectedCode = None) ∧
  (StatusCode resp ≠ expectedCode →
   (∀ m, decodes_as_object (BodyJSON resp) m →
      ∃ e, validateHTTPError resp expectedCode = Some (YQErr e) ∧
           Status e = Sprint (index m "status") ∧
           Msg e = Sprint (index m "message") ∧
           Details e = index m "details" ∧
           (∀ s, m !! "status" = Some (VString s) → Status e = s) ∧
           (∀ s, m !! "message" = Some (VString s) → Msg e = s) ∧
           (index m "status" = VNil → Status e = "<nil>") ∧
           (index m "message" = VNil → Msg e = "<nil>")) ∧
   ((∀ m, ¬ decodes_as_object (BodyJSON resp) m) →
      validateHTTPError resp expectedCode = Some (bare_error (StatusCode resp)))).
Proof.
  unfold validateHTTPError. split.
  - intros Heq. by case_decide.
  - intros Hne. case_decide; [|done]. split.
    + intros m Hm. rewrite (decode_map_object _ _ Hm).
      eexists. split; [reflexivity|]. cbn.
      repeat split; try done.
      * intros s Hs. unfold index. by rewrite Hs.
      * intros s Hs. unfold index. by rewrite Hs.
      * by intros ->.
      * by intros ->.
    + intros Hno. by destruct (decode_map_other _ Hno) as (m & e & ->).
Qed.

End Validation.

Lemma validateHTTPError_spec_witness :
  ∃ e, validateHTTPError (L := ReferenceLib) bad_request StatusOK = Some (YQErr e) ∧
       Status e = "BAD_REQUEST" ∧ Msg e = "x" ∧ Details e = VNil.
Proof.
  destruct (validateHTTPError_spec (L := ReferenceLib) bad_request StatusOK)
    as [_ H].
  destruct H as [H _]; [discriminate|].
  destruct (H bad_request_body) as (e & He & _ & _ & Hd & Hs & Hm & _).
  { left. reflexivity. }
  exists e. split; [exact He|]. split; [|split].
  - apply Hs. reflexivity.
  - apply Hm. reflexivity.
  - rewrite Hd. reflexivity.
Defined.

(** C8, as stated, fails.  For a 404 whose body is the JSON object
    [{"message":"x"}] the error's status is the text ["<nil>"], which is
    not the body's status field (there is none); and for a 500 whose body is
    the JSON array [[]], which is parseable JSON, the error is the bare
    status-code error. *)
Lemma validateHTTPError_status_is_not_the_field :
  validateHTTPError (L := ReferenceLib) message_only StatusOK
  = Some (YQErr {| Message := "Error occurred. http code=404, status=<nil>, msg=x, details=<nil>";
                   Status := "<nil>"; Msg := "x"; Details := VNil |})
  ∧ BodyJSON message_only = Some (VMap (<["message" := VString "x"]> ∅))
  ∧ (<["message" := VString "x"]> (∅ : gmap string value)) !! "status" = None
  ∧ validateHTTPError (L := ReferenceLib) array_body StatusOK
    = Some (YQErr {| Message := "Error occurred: 500";
                     Status := ""; Msg := ""; Details := VNil |})
  ∧ BodyJSON array_body = Some (VSlice []).
Proof. repeat split; vm_compute; reflexivity. Qed.

(** ** [CreateQuery]: the request body *)



Section Requests.
Context {L : StdLib}.
Variables (T : Transport) (c : ClientConfig).

Lemma requests_CreateQuery
    (queryText queryType name description idempotencyKey requestID : string)
    (req : Request) :
  req ∈ requests (CreateQuery T c queryText queryType name description
                    idempotencyKey requestID).2 →
  req = NewRequest "POST" (composeAPIURL c "/api/fq/v1/queries")
          (Some (Header_Set "Content-Type" "application/json"
                   (buildHeaders c idempotencyKey requestID)))
          (Some (CreateQuery_body queryText queryType name description)).
Proof.
  unfold CreateQuery. requests_of_operation requests_doRequest.
Qed.

Lemma requests_GetQueryStatus (queryID requestID : string) (req : Request) :
  req ∈ requests (GetQueryStatus T c queryID requestID).2 →
  req = NewRequest "GET"
          (composeAPIURL c ("/api/fq/v1/queries/" ++ queryID ++ "/status"))
          (Some (buildHeaders c "" requestID)) None.
Proof.
  unfold GetQueryStatus. requests_of_operation requests_doRequest.
Qed.

Lemma requests_GetQuery (queryID requestID : string) (req : Request) :
  req ∈ requests (GetQuery T c queryID requestID).2 →
  req = NewRequest "GET" (composeAPIURL c ("/api/fq/v1/queries/" ++ queryID))
          (Some (buildHeaders c "" requestID)) None.
Proof.
  unfold GetQuery. requests_of_operation requests_doRequest.
Qed.

Lemma requests_StopQuery (queryID idempotencyKey requestID : string)
    (req : Request) :
  req ∈ requests (StopQuery T c queryID idempotencyKey requestID).2 →
  req = NewRequest "POST"
          (composeAPIURL c ("/api/fq/v1/queries/" ++ queryID ++ "/stop"))
          (Some (buildHeaders c idempotencyKey requestID)) None.
Proof.
  unfold StopQuery. requests_of_operation requests_doRequest.
Qed.

Lemma requests_GetQueryResultSetPage (queryID : string)
    (resultSetIndex offset limit : Z) (rawFormat : bool) (requestID : string)
    (req : Request) :
  req ∈ requests (GetQueryResultSetPage T c queryID resultSetIndex offset limit
                    rawFormat requestID).2 →
  req = NewRequest "GET"
          (composeAPIURL c ("/api/fq/v1/queries/" ++ queryID ++ "/results/"
                            ++ pretty resultSetIndex))
          (Some (buildHeaders c "" requestID)) None.
Proof.
  unfold GetQueryResultSetPage. requests_of_operation requests_doRequest.
Qed.

Lemma requests_GetOpenAPISpec (req : Request) :
  req ∈ requests (GetOpenAPISpec T c).2 →
  req = NewRequest "GET" (composeAPIURL c "/resources/v1/openapi.yaml") None None.
Proof.
  unfold GetOpenAPISpec. requests_of_operation requests_doRequest.
Qed.

End Requests.



(** ** Headers *)

Lemma canonical_literals :
  CanonicalMIMEHeaderKey "Authorization" = "Authorization" ∧
  CanonicalMIMEHeaderKey "Idempotency-Key" = "Idempotency-Key" ∧
  CanonicalMIMEHeaderKey "x-request-id" = "X-Request-Id" ∧
  CanonicalMIMEHeaderKey "User-Agent" = "User-Agent" ∧
  CanonicalMIMEHeaderKey "Content-Type" = "Content-Type".
Proof. repeat split; vm_compute; reflexivity. Qed.

Lemma buildHeaders_Authorization (c : ClientConfig) (idempotencyKey requestID : string) :
  buildHeaders c idempotencyKey requestID !! "Authorization"
  = Some [TokenPrefix c ++ Token c].
Proof.
  destruct canonical_literals as (Ha & Hi & Hx & Hu & _).
  unfold buildHeaders, Header_Set. rewrite Ha, Hi, Hx, Hu.
  repeat case_decide; by simplify_map_eq.
Qed.

Lemma buildHeaders_UserAgent (c : ClientConfig) (idempotencyKey requestID : string) :
  UserAgent c ≠ "" →
  buildHeaders c idempotencyKey requestID !! "User-Agent" = Some [UserAgent c].
Proof.
  intros Hua.
  destruct canonical_literals as (Ha & Hi & Hx & Hu & _).
  unfold buildHeaders, Header_Set. rewrite Ha, Hi, Hx, Hu.
  repeat case_decide; by simplify_map_eq.
Qed.

Lemma Content_Type_keeps_Authorization (h : Header) (v : string) :
  Header_Set "Content-Type" v h !! "Authorization" = h !! "Authorization".
Proof.
  destruct canonical_literals as (_ & _ & _ & _ & Hc).
  unfold Header_Set. rewrite Hc. by simplify_map_eq.
Qed.

(** C10.  Every request [GetOpenAPISpec] hands to the transport has a nil
    header map, so it carries no [Authorization], no [User-Agent] and no
    other header, and such a request is sent whenever the request can be
    built; every request of the five other operations that send one
    ([CreateQuery], [GetQueryStatus], [GetQuery], [StopQuery],
    [GetQueryResultSetPage]) carries the header map of [buildHeaders], with
    the token under [Authorization]. *)
Theorem GetOpenAPISpec_sends_no_headers `{StdLib} (T : Transport) (c : ClientConfig) :
  (∀ req, req ∈ requests (GetOpenAPISpec T c).2 → ReqHeader req = None) ∧
  (NewRequest_err T "GET" (composeAPIURL c "/resources/v1/openapi.yaml") = None →
   ∃ req, req ∈ requests (GetOpenAPISpec T c).2 ∧ ReqHeader req = None) ∧
  (∀ queryText queryType name description idempotencyKey requestID,
     authorized c (CreateQuery T c queryText queryType name description
                     idempotencyKey requestID).2) ∧
  (∀ queryID requestID, authorized c (GetQueryStatus T c queryID requestID).2) ∧
  (∀ queryID requestID, authorized c (GetQuery T c queryID requestID).2) ∧
  (∀ queryID idempotencyKey requestID,
     authorized c (StopQuery T c queryID idempotencyKey requestID).2) ∧
  (∀ queryID resultSetIndex offset limit rawFormat requestID,
     authorized c (GetQueryResultSetPage T c queryID resultSetIndex offset limit
                     rawFormat requestID).2).
Proof.
  split; [|split; [|repeat split]].
  - intros req Hin. by rewrite (requests_GetOpenAPISpec _ _ _ Hin).
  - intros Hnew.
    exists (NewRequest "GET" (composeAPIURL c "/resources/v1/openapi.yaml")
              None None).
    split; [|reflexivity]. unfold GetOpenAPISpec.
    pose proof (doRequest_sends T "GET"
                  (composeAPIURL c "/resources/v1/openapi.yaml") None None Hnew)
      as Hs.
    by destruct (doRequest _ _ _ _ _).
  - intros ?????? req Hin. rewrite (requests_CreateQuery _ _ _ _ _ _ _ _ _ Hin).
    eexists. split; [reflexivity|].
    by rewrite Content_Type_keeps_Authorization, buildHeaders_Authorization.
  - intros ?? req Hin. rewrite (requests_GetQueryStatus _ _ _ _ _ Hin).
    eexists. split; [reflexivity|]. apply buildHeaders_Authorization.
  - intros ?? req Hin. rewrite (requests_GetQuery _ _ _ _ _ Hin).
    eexists. split; [reflexivity|]. apply buildHeaders_Authorization.
  - intros ??? req Hin. rewrite (requests_StopQuery _ _ _ _ _ _ Hin).
    eexists. split; [reflexivity|]. apply buildHeaders_Authorization.
  - intros ?????? req Hin.
    rewrite (requests_GetQueryResultSetPage _ _ _ _ _ _ _ _ _ Hin).
    eexists. split; [reflexivity|]. apply buildHeaders_Authorization.
Qed.

Lemma GetOpenAPISpec_sends_no_headers_witness :
  (∃ req, req ∈ requests (GetOpenAPISpec (L := ReferenceLib) ok_transport
                            sample_config).2
          ∧ ReqHeader req = None)
  ∧ authorized sample_config
      (GetQueryStatus (L := ReferenceLib) ok_transport sample_config "q1" "").2.
Proof.
  destruct (GetOpenAPISpec_sends_no_headers (H := ReferenceLib)
              ok_transport sample_config)
    as (_ & Hsent & _ & Hstatus & _).
  split.
  - apply Hsent. reflexivity.
  - apply Hstatus.
Defined.

(** ** [WaitQueryToComplete] *)

Lemma backoff_0 : backoff 0 = 200 * Millisecond.
Proof. reflexivity. Qed.

Lemma backoff_S (k : nat) : backoff (k + 1) = Z.min (2 * backoff k) (2 * Second).
Proof.
  unfold backoff. rewrite Nat2Z.inj_add, Z.pow_add_r by lia.
  change (2 ^ Z.of_nat 1) with 2. unfold Millisecond, Second.
  pose proof (Z.pow_pos_nonneg 2 (Z.of_nat k)). lia.
Qed.

Lemma backoff_bounds (k : nat) : (200 * Millisecond ≤ backoff k ≤ 2 * Second)%Z.
Proof.
  unfold backoff, Millisecond, Second.
  pose proof (Z.pow_pos_nonneg 2 (Z.of_nat k)). lia.
Qed.

Lemma next_delay_backoff (k : nat) : next_delay (backoff k) = backoff (k + 1).
Proof.
  rewrite backoff_S. pose proof (backoff_bounds k) as Hb.
  unfold next_delay, Duration_mul. unfold Millisecond, Second in *.
  rewrite wrap64_small by lia. case_decide; lia.
Qed.

Lemma status_polls_app (tr1 tr2 : list PollEvent) :
  status_polls (tr1 ++ tr2) = (status_polls tr1 + status_polls tr2)%nat.
Proof.
  induction tr1 as [|[] tr1 IH]; cbn; [done|by rewrite IH|done|done].
Qed.

Lemma sleeps_app (tr1 tr2 : list PollEvent) :
  sleeps (tr1 ++ tr2) = (sleeps tr1 ++ sleeps tr2)%list.
Proof.
  induction tr1 as [|[] tr1 IH]; cbn; [done|done|done|by rewrite IH].
Qed.

Lemma stop_calls_app (tr1 tr2 : list PollEvent) :
  stop_calls (tr1 ++ tr2) = (stop_calls tr1 ++ stop_calls tr2)%list.
Proof.
  induction tr1 as [|[] tr1 IH]; cbn; [done|done|by rewrite IH|done].
Qed.

Lemma pending_polls_count (queryID : string) (k n : nat) :
  status_polls (pending_polls queryID k n) = n ∧
  sleeps (pending_polls queryID k n) = backoff <$> seq k n ∧
  stop_calls (pending_polls queryID k n) = [].
Proof.
  revert k. induction n as [|n IH]; intros k; [done|].
  destruct (IH (k + 1)%nat) as (H1 & H2 & H3). cbn.
  rewrite H1, H2, H3. by replace (k + 1)%nat with (S k) by lia.
Qed.

Section Polling.
Variable E : PollEnv.
Variables (queryID : string) (executionTimeout : Duration) (stopOnTimeout : bool).

(** As long as the timeout is not seen, the query is running and the
    context is not done, the loop goes on. *)
Lemma WaitQueryToComplete_loop_pending (n fuel k : nat) :
  (∀ j, (k ≤ j < k + n)%nat →
        ¬ (0 < executionTimeout ∧ executionTimeout < time_Since E j)) →
  (∀ j, (k ≤ j < k + n)%nat → still_running E queryID j) →
  (∀ j, (k ≤ j < k + n)%nat → poll_select E j (backoff j) = None) →
  WaitQueryToComplete_loop E (n + fuel) k queryID executionTimeout stopOnTimeout
    (backoff k)
  = (let '(r, tr) :=
       WaitQueryToComplete_loop E fuel (k + n) queryID executionTimeout
         stopOnTimeout (backoff (k + n)) in
     (r, (pending_polls queryID k n ++ tr)%list)).
Proof.
  revert k. induction n as [|n IH]; intros k Hclock Hrun Hsel.
  - cbn. rewrite Nat.add_0_r. by destruct (WaitQueryToComplete_loop _ _ _ _ _ _ _).
  - cbn [Nat.add WaitQueryToComplete_loop].
    rewrite decide_False by (apply Hclock; lia).
    destruct (Hrun k ltac:(lia)) as (s & -> & ->). cbn [negb].
    rewrite Hsel by lia. rewrite next_delay_backoff.
    rewrite IH; [|intros; apply Hclock; lia|intros; apply Hrun; lia
                 |intros; apply Hsel; lia].
    replace (k + 1 + n)%nat with (k + S n)%nat by lia.
    by destruct (WaitQueryToComplete_loop _ _ _ _ _ _ _).
Qed.

End Polling.

(** C4.  When the polls return the statuses [pending], all of them RUNNING
    or PENDING, and then [final], which is neither, and meanwhile the
    timeout is not seen and the context is not done, [WaitQueryToComplete]
    returns [final] with a nil error after exactly one poll per status,
    [final] included, and it has slept [backoff 0], [backoff 1], ... between
    the polls: 200ms at first, twice the previous delay after each poll,
    and never more than 2s. *)
Theorem WaitQueryToComplete_returns_first_terminal
    (E : PollEnv) (queryID : string) (executionTimeout : Duration)
    (stopOnTimeout : bool) (pending : list string) (final : string)
    (fuel : nat) :
  Forall (λ s, is_running s = true) pending →
  is_running final = false →
  (∀ j s, pending !! j = Some s →
          GetQueryStatus_result E j queryID "" = Some (s, None)) →
  GetQueryStatus_result E (length pending) queryID "" = Some (final, None) →
  (∀ j, (j ≤ length pending)%nat →
        ¬ (0 < executionTimeout ∧ executionTimeout < time_Since E j)) →
  (∀ j, (j < length pending)%nat → poll_select E j (backoff j) = None) →
  (length pending < fuel)%nat →
  (WaitQueryToComplete E fuel queryID executionTimeout stopOnTimeout).1
    = Returns (final, None) ∧
  (WaitQueryToComplete E fuel queryID executionTimeout stopOnTimeout).2
    = (pending_polls queryID 0 (length pending) ++ [EvStatus queryID ""])%list ∧
  status_polls (WaitQueryToComplete E fuel queryID executionTimeout
                  stopOnTimeout).2 = (length pending + 1)%nat ∧
  sleeps (WaitQueryToComplete E fuel queryID executionTimeout stopOnTimeout).2
    = backoff <$> seq 0 (length pending) ∧
  backoff 0 = 200 * Millisecond ∧
  (∀ k, backoff (k + 1) = Z.min (2 * backoff k) (2 * Second)).
Proof.
  intros Hpending Hfinal Hstatus Hlast Hclock Hsel Hfuel.
  assert (Hrun : WaitQueryToComplete E fuel queryID executionTimeout stopOnTimeout
    = (Returns (final, None),
       (pending_polls queryID 0 (length pending) ++ [EvStatus queryID ""])%list)).
  { unfold WaitQueryToComplete.
    replace fuel with (length pending + S (fuel - length pending - 1))%nat by lia.
    change (200 * Millisecond) with (backoff 0).
    rewrite WaitQueryToComplete_loop_pending.
    - cbn [Nat.add WaitQueryToComplete_loop].
      rewrite decide_False by (apply Hclock; lia).
      rewrite Hlast, Hfinal. reflexivity.
    - intros j Hj. apply Hclock. lia.
    - intros j Hj. destruct (lookup_lt_is_Some_2 pending j ltac:(lia)) as [s Hs].
      exists s. split; [by apply Hstatus|].
      rewrite Forall_lookup in Hpending. by apply (Hpending j).
    - intros j Hj. apply Hsel. lia. }
  rewrite Hrun. cbn [fst snd].
  destruct (pending_polls_count queryID 0 (length pending)) as (Hc & Hs & _).
  repeat split.
  - rewrite status_polls_app, Hc. reflexivity.
  - rewrite sleeps_app, Hs. cbn. by rewrite app_nil_r.
  - apply backoff_S.
Qed.

Lemma WaitQueryToComplete_returns_first_terminal_witness :
  (WaitQueryToComplete completes_third 10 "q1" 0 false).1
    = Returns ("COMPLETED", None) ∧
  status_polls (WaitQueryToComplete completes_third 10 "q1" 0 false).2 = 3%nat ∧
  sleeps (WaitQueryToComplete completes_third 10 "q1" 0 false).2
    = [200 * Millisecond; 400 * Millisecond].
Proof.
  destruct (WaitQueryToComplete_returns_first_terminal completes_third "q1" 0
              false ["RUNNING"; "RUNNING"] "COMPLETED" 10)
    as (Hr & _ & Hp & Hs & _).
  - repeat constructor.
  - reflexivity.
  - intros [|[|j]] s Hs; cbn in Hs; [by inversion Hs..|done].
  - reflexivity.
  - intros j _ [H0 _]. lia.
  - intros j _. reflexivity.
  - cbn. lia.
  - split; [exact Hr|]. split; [exact Hp|exact Hs].
Defined.

(** C3 (the code departs from the claim).  With a timeout greater than
    zero: when the elapsed time is first seen to exceed the timeout at the
    start of iteration [n], every poll before having found the query
    running or pending, [WaitQueryToComplete] makes no stop call when
    [stopOnTimeout] is false and one, made last, when it is true.  It
    returns the timeout error when [stopOnTimeout] is false and when the
    stop call returns, whatever error that call returns; but when the stop
    call panics, which the package's [StopQuery] does when none of its
    attempts gets through, [WaitQueryToComplete] panics instead of failing
    with the timeout error.  With a timeout of zero no run makes a stop
    call, the run is the same whatever the clock, the [StopQuery] answer
    and [stopOnTimeout] are, and a query that stays running under a context
    that is never done keeps the loop going for ever. *)
Theorem WaitQueryToComplete_timeout :
  (∀ (E : PollEnv) (queryID : string) (executionTimeout : Duration)
     (stopOnTimeout : bool) (n fuel : nat),
     0 < executionTimeout →
     (∀ j, (j < n)%nat → time_Since E j ≤ executionTimeout) →
     (∀ j, (j < n)%nat → still_running E queryID j) →
     (∀ j, (j < n)%nat → poll_select E j (backoff j) = None) →
     executionTimeout < time_Since E n →
     (n < fuel)%nat →
     WaitQueryToComplete E fuel queryID executionTimeout stopOnTimeout
     = (if stopOnTimeout
        then match StopQuery_result E queryID "" "" with
             | Some r =>
                 (Returns ("", Some (timeout_error queryID)),
                  (pending_polls queryID 0 n
                   ++ [EvStop queryID "" "" (Some r)])%list)
             | None =>
                 (Panics,
                  (pending_polls queryID 0 n ++ [EvStop queryID "" "" None])%list)
             end
        else (Returns ("", Some (timeout_error queryID)),
              pending_polls queryID 0 n)) ∧
     (length (stop_calls (WaitQueryToComplete E fuel queryID executionTimeout
                            stopOnTimeout).2) = 1%nat ↔ stopOnTimeout = true) ∧
     (stop_calls (WaitQueryToComplete E fuel queryID executionTimeout
                    stopOnTimeout).2 = [] ↔ stopOnTimeout = false)) ∧
  (∀ (E : PollEnv) (queryID : string) (stopOnTimeout : bool) (fuel : nat),
     stop_calls (WaitQueryToComplete E fuel queryID 0 stopOnTimeout).2 = []) ∧
  (∀ (E E' : PollEnv) (queryID : string) (stopOnTimeout stopOnTimeout' : bool)
     (fuel : nat),
     (∀ k, GetQueryStatus_result E k queryID ""
           = GetQueryStatus_result E' k queryID "") →
     (∀ k d, poll_select E k d = poll_select E' k d) →
     WaitQueryToComplete E fuel queryID 0 stopOnTimeout
     = WaitQueryToComplete E' fuel queryID 0 stopOnTimeout') ∧
  (∀ (E : PollEnv) (queryID : string) (stopOnTimeout : bool) (fuel : nat),
     (∀ j, still_running E queryID j) →
     (∀ j, poll_select E j (backoff j) = None) →
     (WaitQueryToComplete E fuel queryID 0 stopOnTimeout).1 = OutOfFuel).
Proof.
  split; [|split; [|split]].
  - intros E queryID executionTimeout stopOnTimeout n fuel
      Hpos Hclock Hrun Hsel Hover Hfuel.
    assert (Heq : WaitQueryToComplete E fuel queryID executionTimeout stopOnTimeout
      = (if stopOnTimeout
         then match StopQuery_result E queryID "" "" with
              | Some r =>
                  (Returns ("", Some (timeout_error queryID)),
                   (pending_polls queryID 0 n
                    ++ [EvStop queryID "" "" (Some r)])%list)
              | None =>
                  (Panics,
                   (pending_polls queryID 0 n
                    ++ [EvStop queryID "" "" None])%list)
              end
         else (Returns ("", Some (timeout_error queryID)),
               pending_polls queryID 0 n))).
    { unfold WaitQueryToComplete.
      replace fuel with (n + S (fuel - n - 1))%nat by lia.
      change (200 * Millisecond) with (backoff 0).
      rewrite WaitQueryToComplete_loop_pending.
      - cbn [Nat.add WaitQueryToComplete_loop].
        rewrite decide_True by done.
        destruct stopOnTimeout; [|by rewrite app_nil_r].
        by destruct (StopQuery_result E queryID "" "").
      - intros j Hj [_ Hlt]. specialize (Hclock j ltac:(lia)). lia.
      - intros j Hj. apply Hrun. lia.
      - intros j Hj. apply Hsel. lia. }
    rewrite Heq. split; [done|].
    destruct (pending_polls_count queryID 0 n) as (_ & _ & Hstop).
    destruct stopOnTimeout.
    + destruct (StopQuery_result E queryID "" ""); cbn [snd];
        rewrite stop_calls_app, Hstop; done.
    + cbn [snd]. rewrite Hstop. done.
  - intros E queryID stopOnTimeout fuel. unfold WaitQueryToComplete.
    generalize (200 * Millisecond). generalize 0%nat.
    induction fuel as [|fuel IH]; intros k delay; [done|].
    cbn [WaitQueryToComplete_loop].
    rewrite decide_False by lia.
    destruct (GetQueryStatus_result E k queryID "") as [[s [e|]]|];
      [done| |done].
    destruct (is_running s); [|done]. cbn [negb].
    destruct (poll_select E k delay); [done|].
    specialize (IH (k + 1)%nat (next_delay delay)).
    by destruct (WaitQueryToComplete_loop _ _ _ _ _ _ _).
  - intros E E' queryID stopOnTimeout stopOnTimeout' fuel Hst Hsel.
    unfold WaitQueryToComplete.
    generalize (200 * Millisecond). generalize 0%nat.
    induction fuel as [|fuel IH]; intros k delay; [done|].
    cbn [WaitQueryToComplete_loop].
    rewrite !decide_False by lia. rewrite Hst, Hsel.
    destruct (GetQueryStatus_result E' k queryID "") as [[s [e|]]|];
      [done| |done].
    destruct (is_running s); [|done]. cbn [negb].
    destruct (poll_select E' k delay); [done|].
    by rewrite IH.
  - intros E queryID stopOnTimeout fuel Hrun Hsel.
    unfold WaitQueryToComplete. change (200 * Millisecond) with (backoff 0).
    generalize 0%nat.
    induction fuel as [|fuel IH]; intros k; [done|].
    cbn [WaitQueryToComplete_loop].
    rewrite decide_False by lia.
    destruct (Hrun k) as (s & -> & ->). cbn [negb].
    rewrite Hsel, next_delay_backoff.
    specialize (IH (k + 1)%nat).
    by destruct (WaitQueryToComplete_loop _ _ _ _ _ _ _).
Qed.

(** The failing input of C3: the query stays running, the timeout of two
    seconds is seen at the fourth iteration, and the network is down for
    the stop call. *)
Lemma WaitQueryToComplete_timeout_witness :
  StopQuery_result stop_unreachable "q1" "" "" = None
  ∧ WaitQueryToComplete stop_unreachable 10 "q1" (2 * Second) true
    = (Panics,
       [EvStatus "q1" ""; EvSleep (200 * Millisecond);
        EvStatus "q1" ""; EvSleep (400 * Millisecond);
        EvStatus "q1" ""; EvSleep (800 * Millisecond);
        EvStop "q1" "" "" None])
  ∧ WaitQueryToComplete stop_unreachable 10 "q1" (2 * Second) false
    = (Returns ("", Some (FmtErr "query q1 execution timeout")),
       [EvStatus "q1" ""; EvSleep (200 * Millisecond);
        EvStatus "q1" ""; EvSleep (400 * Millisecond);
        EvStatus "q1" ""; EvSleep (800 * Millisecond)])
  ∧ (WaitQueryToComplete stop_refused 10 "q1" (2 * Second) true).1
    = Returns ("", Some (FmtErr "query q1 execution timeout"))
  ∧ (WaitQueryToComplete stop_unreachable 10 "q1" 0 true).1 = OutOfFuel.
Proof.
  destruct WaitQueryToComplete_timeout as (Hto & _ & _ & Hzero).
  assert (Hstop : StopQuery_result stop_unreachable "q1" "" "" = None)
    by (vm_compute; reflexivity).
  assert (Hrun : ∀ E, (∀ k, GetQueryStatus_result E k "q1" ""
                            = Some ("RUNNING", None)) →
                      ∀ j, still_running E "q1" j).
  { intros E HE j. exists "RUNNING". split; [apply HE|reflexivity]. }
  assert (Hun : ∀ k, GetQueryStatus_result stop_unreachable k "q1" ""
                     = Some ("RUNNING", None))
    by (intros k; vm_compute; reflexivity).
  assert (Hre : ∀ k, GetQueryStatus_result stop_refused k "q1" ""
                     = Some ("RUNNING", None))
    by (intros k; vm_compute; reflexivity).
  assert (Hclock : ∀ j, (j < 3)%nat → Z.of_nat j * Second ≤ 2 * Second).
  { intros j Hj. unfold Second. lia. }
  split; [exact Hstop|]. split; [|split; [|split]].
  - destruct (Hto stop_unreachable "q1" (2 * Second) true 3%nat 10%nat) as [H _].
    + reflexivity.
    + exact Hclock.
    + intros j _. by apply Hrun.
    + intros j _. reflexivity.
    + reflexivity.
    + lia.
    + rewrite Hstop in H. exact H.
  - destruct (Hto stop_unreachable "q1" (2 * Second) false 3%nat 10%nat) as [H _].
    + reflexivity.
    + exact Hclock.
    + intros j _. by apply Hrun.
    + intros j _. reflexivity.
    + reflexivity.
    + lia.
    + exact H.
  - destruct (Hto stop_refused "q1" (2 * Second) true 3%nat 10%nat) as [H _].
    + reflexivity.
    + exact Hclock.
    + intros j _. by apply Hrun.
    + intros j _. reflexivity.
    + reflexivity.
    + lia.
    + rewrite H.
      by destruct (StopQuery_result stop_refused "q1" "" "") eqn:Hs;
        [|vm_compute in Hs; discriminate].
  - apply Hzero; [by apply Hrun|]. intros j. reflexivity.
Defined.

(** ** The result decoder *)

Section Converters.
Context {L : StdLib}.

Lemma getConverter_String : getConverter "String" = convertFromBase64.
Proof. reflexivity. Qed.

Lemma getConverter_float (columnType : string) :
  columnType ∈ ["Float"; "Double"] → getConverter columnType = convertFromFloat.
Proof.
  intros Hin.
  repeat (apply elem_of_cons in Hin as [->|Hin]; [reflexivity|]).
  by apply elem_of_nil in Hin.
Qed.

Lemma getConverter_datetime (columnType : string) :
  columnType ∈ ["Date"; "Datetime"; "Timestamp"] →
  getConverter columnType = convertFromDatetime.
Proof.
  intros Hin.
  repeat (apply elem_of_cons in Hin as [->|Hin]; [reflexivity|]).
  by apply elem_of_nil in Hin.
Qed.

Lemma getConverter_other (columnType : string) (v : value) :
  columnType ∉ ["String"; "Float"; "Double"; "Date"; "Datetime"; "Timestamp"] →
  getConverter columnType v = v.
Proof.
  intros Hnot. unfold getConverter.
  repeat case_bool_decide; try done; exfalso; apply Hnot;
    repeat match goal with
    | H : _ ∈ _ :: _ |- _ => apply elem_of_cons in H as [->|H]
    | H : _ ∈ [] |- _ => by apply elem_of_nil in H
    end; subst; rewrite !elem_of_cons; tauto.
Qed.

End Converters.

(** C6.  The converter of a String column turns the base64 text of
    [hello] into [hello]; that of a Double column turns the string [3.14]
    into the number 3.14; that of a Timestamp column turns
    [2024-01-01T00:00:00Z] into the time of that date (the last two for
    standard parsers that read a short decimal literal and a UTC timestamp
    as [StdLibLaws] says).  For every cell value: a column type outside
    String, Float, Double, Date, Datetime and Timestamp leaves the cell as
    it is; a String column decodes a string cell and leaves it as it is
    when the decoding fails, and leaves every other cell as it is; a Float
    or Double column parses a string cell and leaves it as it is when the
    parsing fails, and leaves every other cell, a [float64] among them, as
    it is; a Date, Datetime or Timestamp column does the same with the
    timestamp parser. *)
Theorem getConverter_table `{L : StdLib} :
  getConverter "String" (VString "aGVsbG8=") = VString "hello" ∧
  (StdLibLaws L →
   getConverter "Double" (VString "3.14") = VNumber 3.14%float) ∧
  (StdLibLaws L →
   getConverter "Timestamp" (VString "2024-01-01T00:00:00Z") = VTime new_year) ∧
  (∀ columnType v,
     columnType ∉ ["String"; "Float"; "Double"; "Date"; "Datetime"; "Timestamp"] →
     getConverter columnType v = v) ∧
  ((∀ v, (∀ s, v ≠ VString s) → getConverter "String" v = v) ∧
   (∀ s, DecodeString s = None → getConverter "String" (VString s) = VString s) ∧
   (∀ s decoded, DecodeString s = Some decoded →
                 getConverter "String" (VString s) = VString decoded)) ∧
  (∀ columnType, columnType ∈ ["Float"; "Double"] →
     (∀ v, (∀ s, v ≠ VString s) → getConverter columnType v = v) ∧
     (∀ f, getConverter columnType (VNumber f) = VNumber f) ∧
     (∀ s, ParseFloat s = None → getConverter columnType (VString s) = VString s) ∧
     (∀ s f, ParseFloat s = Some f →
             getConverter columnType (VString s) = VNumber f)) ∧
  (∀ columnType, columnType ∈ ["Date"; "Datetime"; "Timestamp"] →
     (∀ v, (∀ s, v ≠ VString s) → getConverter columnType v = v) ∧
     (∀ s, Parse_RFC3339 s = None →
           getConverter columnType (VString s) = VString s) ∧
     (∀ s t, Parse_RFC3339 s = Some t →
             getConverter columnType (VString s) = VTime t)).
Proof.
  split; [|split; [|split; [|split; [|split]]]].
  - rewrite getConverter_String. vm_compute. reflexivity.
  - intros Hlaws.
    rewrite getConverter_float by (rewrite !elem_of_cons; tauto). cbn.
    rewrite (ParseFloat_decimal "3.14" 3.14%float); [done|].
    vm_compute. reflexivity.
  - intros Hlaws.
    rewrite getConverter_datetime by (rewrite !elem_of_cons; tauto). cbn.
    rewrite (Parse_RFC3339_utc "2024-01-01T00:00:00Z" new_year); [done|].
    vm_compute. reflexivity.
  - intros. by apply getConverter_other.
  - rewrite getConverter_String. split; [|split].
    + intros v Hv. destruct v; try done. by destruct (Hv s).
    + intros s Hs. cbn. by rewrite Hs.
    + intros s d Hs. cbn. by rewrite Hs.
  - split.
    + intros ty Hty. rewrite getConverter_float by done.
      split; [|split; [|split]].
      * intros v Hv. destruct v; try done. by destruct (Hv s).
      * done.
      * intros s Hs. cbn. by rewrite Hs.
      * intros s f Hs. cbn. by rewrite Hs.
    + intros ty Hty. rewrite getConverter_datetime by done.
      split; [|split].
      * intros v Hv. destruct v; try done. by destruct (Hv s).
      * intros s Hs. cbn. by rewrite Hs.
      * intros s t Hs. cbn. by rewrite Hs.
Qed.

Lemma getConverter_table_witness :
  getConverter (L := ReferenceLib) "Double" (VString "3.14") = VNumber 3.14%float ∧
  getConverter (L := ReferenceLib) "Timestamp" (VString "2024-01-01T00:00:00Z")
    = VTime new_year ∧
  getConverter (L := ReferenceLib) "Interval" (VNumber 1%float) = VNumber 1%float ∧
  getConverter (L := ReferenceLib) "String" (VString "not base64!")
    = VString "not base64!" ∧
  getConverter (L := ReferenceLib) "String" (VNumber 1%float) = VNumber 1%float ∧
  getConverter (L := ReferenceLib) "Float" (VString "abc") = VString "abc" ∧
  getConverter (L := ReferenceLib) "Double" VNil = VNil ∧
  getConverter (L := ReferenceLib) "Date" (VString "yesterday") = VString "yesterday".
Proof.
  assert (Hlaws : StdLibLaws ReferenceLib).
  { split; intros; assumption. }
  destruct (getConverter_table (L := ReferenceLib))
    as (_ & Hf & Ht & Ho & (Hbo & Hbf & _) & Hfl & Hdt).
  destruct (Hfl "Float") as (_ & _ & Hpf & _); [rewrite !elem_of_cons; tauto|].
  destruct (Hfl "Double") as (Hpo & _); [rewrite !elem_of_cons; tauto|].
  destruct (Hdt "Date") as (_ & Hpt & _); [rewrite !elem_of_cons; tauto|].
  split; [|split; [|split; [|split; [|split; [|split; [|split]]]]]].
  - apply Hf. exact Hlaws.
  - apply Ht. exact Hlaws.
  - apply Ho. vm_compute. intros Hin.
    repeat (apply elem_of_cons in Hin as [Hin|Hin]; [discriminate|]).
    by apply elem_of_nil in Hin.
  - apply Hbf. vm_compute. reflexivity.
  - apply Hbo. intros s. discriminate.
  - apply Hpf. vm_compute. reflexivity.
  - apply Hpo. intros s. discriminate.
  - apply Hpt. vm_compute. reflexivity.
Defined.

(** ** The [Results] cache *)

Section Cache.
Context {L : StdLib}.

Lemma convert_cached (r : Results) (σ : store) (l : loc) :
  results r = Some l → convert r σ = Some (r, σ).
Proof. unfold convert. by intros ->. Qed.

(** The first conversion: the document is computed from the raw one and
    put in a map that did not exist. *)
Lemma convert_first (r r1 : Results) (σ σ1 : store) :
  results r = None →
  convert r σ = Some (r1, σ1) →
  ∃ raw doc l,
    deref σ (rawResults r) = Some raw ∧ converted raw = Some doc ∧
    σ !! l = None ∧
    r1 = {| rawResults := rawResults r; results := Some l |} ∧
    σ1 = <[l := doc]> σ.
Proof.
  unfold convert. intros -> Hc.
  destruct (deref σ (rawResults r)) as [raw|] eqn:Hd; cbn in Hc; [|done].
  destruct (converted raw) as [doc|] eqn:Hcv; cbn in Hc; [|done].
  inversion Hc; subst.
  exists raw, doc, (fresh (dom σ)).
  split; [done|]. split; [done|]. split; [|done].
  apply not_elem_of_dom, is_fresh.
Qed.

Lemma convert_results (r r1 : Results) (σ σ1 : store) :
  convert r σ = Some (r1, σ1) →
  (∃ l, results r1 = Some l) ∧ rawResults r1 = rawResults r ∧
  (∀ l, is_Some (σ !! l) → σ1 !! l = σ !! l).
Proof.
  intros Hc. destruct (results r) as [l|] eqn:Hres.
  - rewrite (convert_cached _ _ _ Hres) in Hc. inversion Hc; subst. eauto.
  - destruct (convert_first _ _ _ _ Hres Hc)
      as (raw & doc & l & _ & _ & Hfresh & -> & ->).
    cbn. split; [eauto|]. split; [done|].
    intros l' [d Hd]. rewrite lookup_insert_ne; [done|]. congruence.
Qed.

(** A fresh object over the map at [l] returns the conversion of that
    map. *)
Lemma Results_fresh (σ : store) (l : loc) (raw doc : gmap string value) :
  σ !! l = Some raw → converted raw = Some doc →
  ∃ l' r' σ', Results_get (NewYQResults (Some l)) σ = Some (Some l', r', σ') ∧
              σ' !! l' = Some doc.
Proof.
  intros Hl Hdoc. unfold Results_get, convert. cbn. rewrite Hl. cbn.
  rewrite Hdoc. cbn. eexists _, _, _. split; [reflexivity|].
  apply lookup_insert_eq.
Qed.

End Cache.

(** C7.  When a call of [Results] returns, it returns a non-nil map
    reference; every later call returns that same reference and leaves the
    object and the store as they are, so nothing is computed or allocated
    again; the call that finds the cache empty computes the conversion of
    the raw document once, into a map that did not exist before; the raw
    reference of the object is the one it was built with; and every map
    that was in the store, the raw document among them, is in it
    unchanged. *)
Theorem Results_computed_once `{StdLib}
    (r r1 : Results) (σ σ1 : store) (d : option loc) :
  Results_get r σ = Some (d, r1, σ1) →
  (∃ l, d = Some l ∧ results r1 = Some l) ∧
  (∀ n, Results_calls n r1 σ1 = Some (replicate n d, r1, σ1)) ∧
  (results r = None →
   ∃ raw doc l, deref σ (rawResults r) = Some raw ∧ converted raw = Some doc ∧
                d = Some l ∧ σ !! l = None ∧ σ1 = <[l := doc]> σ) ∧
  RawResults r1 = RawResults r ∧
  (∀ l, is_Some (σ !! l) → σ1 !! l = σ !! l).
Proof.
  unfold Results_get. intros Hget.
  destruct (convert r σ) as [[r' σ']|] eqn:Hc; [|done].
  cbn in Hget. inversion Hget; subst. clear Hget.
  destruct (convert_results _ _ _ _ Hc) as ([l Hl] & Hraw & Hkeep).
  split; [eauto|]. split; [|split; [|split; [done|done]]].
  - induction n as [|n IH]; [done|].
    cbn [Results_calls]. unfold Results_get.
    rewrite (convert_cached _ _ _ Hl). cbn. rewrite IH. reflexivity.
  - intros Hnone.
    destruct (convert_first _ _ _ _ Hnone Hc)
      as (raw & doc & l' & Hd & Hcv & Hfresh & -> & ->).
    exists raw, doc, l'. by repeat split.
Qed.

Lemma Results_computed_once_witness :
  ∃ l doc,
    Results_get (L := ReferenceLib) (NewYQResults (Some 1%positive)) hello_store
    = Some (Some l, {| rawResults := Some 1%positive; results := Some l |},
            <[l := doc]> hello_store) ∧
    Results_calls (L := ReferenceLib) 3
      {| rawResults := Some 1%positive; results := Some l |}
      (<[l := doc]> hello_store)
    = Some ([Some l; Some l; Some l],
            {| rawResults := Some 1%positive; results := Some l |},
            <[l := doc]> hello_store) ∧
    index doc "rows" = VRows [[VString "hello"]] ∧
    <[l := doc]> hello_store !! 1%positive = Some hello_document.
Proof.
  assert (Hcv : converted (L := ReferenceLib) hello_document
                = Some (<["columns" := VSlice [column "greeting" "String"]]>
                          (<["rows" := VRows [[VString "hello"]]]> ∅))).
  { vm_compute. reflexivity. }
  set (doc := <["columns" := VSlice [column "greeting" "String"]]>
                (<["rows" := VRows [[VString "hello"]]]> (∅ : gmap string value))).
  set (l := fresh (dom hello_store)).
  assert (Hget : Results_get (L := ReferenceLib) (NewYQResults (Some 1%positive))
                   hello_store
                 = Some (Some l, {| rawResults := Some 1%positive;
                                    results := Some l |},
                         <[l := doc]> hello_store)).
  { assert (Hl : hello_store !! 1%positive = Some hello_document)
      by apply lookup_insert_eq.
    unfold Results_get, convert. cbn [results NewYQResults rawResults deref].
    rewrite Hl. cbn [mbind option_bind]. rewrite Hcv. reflexivity. }
  destruct (Results_computed_once (H := ReferenceLib) _ _ _ _ _ Hget)
    as (_ & Hcalls & _ & _ & Hkeep).
  exists l, doc. split; [exact Hget|]. split; [exact (Hcalls 3%nat)|].
  split; [reflexivity|].
  rewrite Hkeep; [reflexivity|]. eexists. reflexivity.
Defined.

(** ** [GetQueryResultSet] *)

Lemma int_add_page (k : nat) :
  1000 * Z.of_nat (k + 1) < 2 ^ 63 →
  int_add (1000 * Z.of_nat k) 1000 = 1000 * Z.of_nat (k + 1).
Proof. intros Hk. unfold int_add. rewrite wrap64_small by lia. lia. Qed.

Lemma has_rows_of (p : gmap string value) :
  has_rows p → index p "rows" = VSlice (rows_of p).
Proof. intros [r Hr]. unfold rows_of. by rewrite Hr. Qed.

Section Pages.
Context {L : StdLib}.
Variable E : PageEnv.
Variables (queryID : string) (resultSetIndex : Z) (rawFormat : bool).

(** As long as the pages are full, the loop goes on: one call per page,
    the offset a thousand further each time. *)
Lemma GetQueryResultSet_loop_full (full : list (gmap string value))
    (fuel k : nat) (columns : value) (rows : list value) :
  Forall (λ p, has_rows p ∧ length (rows_of p) = 1000%nat) full →
  (∀ j p, full !! j = Some p →
     GetQueryResultSetPage_result E (k + j)
       (page_call queryID resultSetIndex rawFormat (k + j)) = (p, None)) →
  1000 * Z.of_nat (k + length full) < 2 ^ 63 →
  GetQueryResultSet_loop E (length full + fuel) k queryID resultSetIndex
    rawFormat (1000 * Z.of_nat k) 1000 columns rows
  = (let '(o, tr) :=
       GetQueryResultSet_loop E fuel (k + length full) queryID resultSetIndex
         rawFormat (1000 * Z.of_nat (k + length full)) 1000
         (columns_after columns full)
         (rows ++ concat (rows_of <$> full))%list in
     (o, ((page_call queryID resultSetIndex rawFormat <$> seq k (length full))
          ++ tr)%list)).
Proof.
  revert k columns rows.
  induction full as [|p full IH]; intros k columns rows Hfull Hpages Hbound.
  - cbn. rewrite Nat.add_0_r, app_nil_r.
    by destruct (GetQueryResultSet_loop _ _ _ _ _ _ _ _ _ _).
  - apply Forall_cons in Hfull as [[Hrows Hlen] Hfull].
    cbn [length Nat.add GetQueryResultSet_loop].
    pose proof (Hpages 0%nat p eq_refl) as H0.
    rewrite Nat.add_0_r in H0. unfold page_call in H0. rewrite H0.
    rewrite (has_rows_of p Hrows).
    rewrite decide_False by (rewrite Hlen; lia).
    rewrite int_add_page by (cbn [length] in Hbound; lia).
    rewrite IH.
    + replace (k + 1 + length full)%nat with (k + S (length full))%nat by lia.
      cbn [columns_after fmap list_fmap concat seq].
      rewrite <- (assoc_L app rows).
      replace (S k) with (k + 1)%nat by lia.
      by destruct (GetQueryResultSet_loop _ _ _ _ _ _ _ _ _ _).
    + done.
    + intros j q Hq. replace (k + 1 + j)%nat with (k + S j)%nat by lia.
      by apply Hpages.
    + cbn [length] in Hbound. lia.
Qed.

End Pages.




(** * Further properties *)

(** ** Construction *)

(** X1.  After [NewClient] the user agent, the endpoint, the web base URL
    and the token prefix are not empty; a field that was not empty is kept;
    the token and the project are kept as they are, empty or not; and
    [NewClient] applied twice is [NewClient] applied once. *)
Theorem NewClient_fills_defaults (config : ClientConfig) :
  (UserAgent (NewClient config) ≠ "" ∧ Endpoint (NewClient config) ≠ "" ∧
   WebBaseURL (NewClient config) ≠ "" ∧ TokenPrefix (NewClient config) ≠ "") ∧
  (UserAgent config ≠ "" → UserAgent (NewClient config) = UserAgent config) ∧
  (Endpoint config ≠ "" → Endpoint (NewClient config) = Endpoint config) ∧
  (WebBaseURL config ≠ "" → WebBaseURL (NewClient config) = WebBaseURL config) ∧
  (TokenPrefix config ≠ "" → TokenPrefix (NewClient config) = TokenPrefix config) ∧
  Token (NewClient config) = Token config ∧
  Project (NewClient config) = Project config ∧
  NewClient (NewClient config) = NewClient config.
Proof.
  destruct config as [tok proj ua ep web pre].
  unfold NewClient, or_default. cbn.
  split; [|split; [|split; [|split; [|split; [|split; [|split]]]]]]; try done.
  - repeat split; case_decide; done.
  - intros Hne. by rewrite decide_False.
  - intros Hne. by rewrite decide_False.
  - intros Hne. by rewrite decide_False.
  - intros Hne. by rewrite decide_False.
  - f_equal; repeat case_decide; done.
Qed.

Lemma NewClient_fills_defaults_witness :
  UserAgent (NewClient sample_config) = UserAgent sample_config ∧
  TokenPrefix (NewClient bare_config) ≠ "".
Proof.
  pose proof (NewClient_fills_defaults sample_config) as (_ & Hua & _).
  pose proof (NewClient_fills_defaults bare_config) as ((_ & _ & _ & Hpre) & _).
  split; [apply Hua; discriminate|exact Hpre].
Defined.

(** X2.  The header map of [buildHeaders] has [Authorization] always, and
    [Idempotency-Key], [X-Request-Id] and [User-Agent] exactly when the
    idempotency key, the request id and the configured user agent are not
    empty, each with that single value, and no other name; the request id
    is under the canonical name, not under [x-request-id]. *)
Theorem buildHeaders_names (c : ClientConfig) (idempotencyKey requestID : string) :
  buildHeaders c idempotencyKey requestID !! "Authorization"
    = Some [TokenPrefix c ++ Token c] ∧
  buildHeaders c idempotencyKey requestID !! "Idempotency-Key"
    = (λ v, [v]) <$> nonempty idempotencyKey ∧
  buildHeaders c idempotencyKey requestID !! "X-Request-Id"
    = (λ v, [v]) <$> nonempty requestID ∧
  buildHeaders c idempotencyKey requestID !! "User-Agent"
    = (λ v, [v]) <$> nonempty (UserAgent c) ∧
  (∀ name, name ∉ ["Authorization"; "Idempotency-Key"; "X-Request-Id"; "User-Agent"] →
           buildHeaders c idempotencyKey requestID !! name = None) ∧
  buildHeaders c idempotencyKey requestID !! "x-request-id" = None.
Proof.
  destruct canonical_literals as (Ha & Hi & Hx & Hu & _).
  unfold buildHeaders, Header_Set, nonempty. rewrite Ha, Hi, Hx, Hu.
  split; [|split; [|split; [|split; [|split]]]].
  - repeat case_decide; by simplify_map_eq.
  - repeat case_decide; by simplify_map_eq.
  - repeat case_decide; by simplify_map_eq.
  - repeat case_decide; by simplify_map_eq.
  - intros name Hname.
    assert (name ≠ "Authorization" ∧ name ≠ "Idempotency-Key" ∧
            name ≠ "X-Request-Id" ∧ name ≠ "User-Agent") as (?&?&?&?).
    { repeat split; intros ->; apply Hname; rewrite !elem_of_cons; tauto. }
    repeat case_decide; by simplify_map_eq.
  - repeat case_decide; by simplify_map_eq.
Qed.

Lemma buildHeaders_names_witness :
  buildHeaders sample_config "" "req-1" !! "Content-Type" = None.
Proof.
  pose proof (buildHeaders_names sample_config "" "req-1") as (_ & _ & _ & _ & H & _).
  apply H. intros Hin.
  repeat (apply elem_of_cons in Hin as [Hin|Hin]; [discriminate|]).
  by apply elem_of_nil in Hin.
Defined.

Lemma append_empty_r (s : string) : s ++ "" = s.
Proof.
  induction s as [|a s IH]; [done|].
  change (String a (s ++ "") = String a s). by rewrite IH.
Qed.

(** X3.  A client made by [NewClient] sends a [User-Agent] with every
    header map it builds, the configured one or the default; and it accepts
    an empty token, for which [Authorization] is the bare prefix. *)
Theorem NewClient_always_sends_User_Agent
    (config : ClientConfig) (idempotencyKey requestID : string) :
  buildHeaders (NewClient config) idempotencyKey requestID !! "User-Agent"
    = Some [if decide (UserAgent config = "") then DefaultUserAgent
            else UserAgent config] ∧
  (Token config = "" →
   buildHeaders (NewClient config) idempotencyKey requestID !! "Authorization"
   = Some [if decide (TokenPrefix config = "") then DefaultTokenPrefix
           else TokenPrefix config]).
Proof.
  split.
  - rewrite buildHeaders_UserAgent.
    + reflexivity.
    + cbn. unfold or_default. by case_decide.
  - intros Htok. rewrite buildHeaders_Authorization. cbn. rewrite Htok.
    by rewrite append_empty_r.
Qed.

Lemma NewClient_always_sends_User_Agent_witness :
  buildHeaders (NewClient {| Token := ""; Project := ""; UserAgent := "";
                             Endpoint := ""; WebBaseURL := ""; TokenPrefix := "" |})
    "" "" !! "Authorization" = Some ["Bearer "].
Proof.
  pose proof (NewClient_always_sends_User_Agent
                {| Token := ""; Project := ""; UserAgent := ""; Endpoint := "";
                   WebBaseURL := ""; TokenPrefix := "" |} "" "") as [_ H].
  apply H. reflexivity.
Defined.

(** ** More on [doRequest] *)

Lemma doRequest_loop_outcomes (T : Transport) (n i : nat) (method url : string)
    (headers : option Header) (body : option (gmap string string)) :
  (i + n < 1000)%nat →
  match (doRequest_loop T n i method url headers body None).1 with
  | (Some resp, None) =>
      ∃ k, (i ≤ k < i + n)%nat ∧
           client_Do T k (NewRequest method url headers body) = DoResponse resp
  | (None, Some e) =>
      NewRequest_err T method url = Some e ∨
      ∃ k, (i ≤ k < i + n)%nat ∧
           is_DoError (client_Do T k (NewRequest method url headers body)) ∧
           ctx_select T k (Z.of_nat (k + 1) * Second) = Some e
  | (None, None) =>
      ∀ j, (i ≤ j < i + n)%nat →
           is_DoError (client_Do T j (NewRequest method url headers body)) ∧
           ctx_select T j (Z.of_nat (j + 1) * Second) = None
  | (Some _, Some _) => False
  end.
Proof.
  revert i. induction n as [|n IH]; intros i Hi.
  - cbn. intros j Hj. lia.
  - cbn [doRequest_loop].
    destruct (NewRequest_err T method url) as [e|] eqn:Hnew; [cbn; by left|].
    destruct (client_Do T i _) as [resp|e] eqn:Hdo.
    { cbn. exists i. split; [lia|done]. }
    rewrite retry_wait by lia.
    destruct (ctx_select T i _) as [ctx_err|] eqn:Hsel.
    { cbn. right. exists i. split; [lia|]. by rewrite Hdo. }
    specialize (IH (i + 1)%nat ltac:(lia)).
    destruct (doRequest_loop _ _ _ _ _ _ _ _) as [[[resp|] [e'|]] tr];
      cbn [fst] in *.
    + done.
    + destruct IH as (k & Hk & Hresp). exists k. split; [lia|done].
    + destruct IH as [Hn|(k & Hk & Herr & Hctx)]; [congruence|].
      right. exists k. split; [lia|done].
    + intros j Hj. destruct (decide (j = i)) as [->|Hne].
      * by rewrite Hdo.
      * apply IH. lia.
Qed.

(** X4.  What [doRequest] can return.  A response comes with a nil error
    and is the transport's answer to one of the five attempts.  A non-nil
    error comes with a nil response and is the error of building the
    request or the context's error from a wait after a failed attempt:
    never the error of an attempt.  A nil response with a nil error means
    that all five attempts failed and all five waits ran out. *)
Theorem doRequest_outcomes (T : Transport) (method url : string)
    (headers : option Header) (body : option (gmap string string)) :
  match (doRequest T method url headers body).1 with
  | (Some resp, None) =>
      ∃ k, (k < 5)%nat ∧
           client_Do T k (NewRequest method url headers body) = DoResponse resp
  | (None, Some e) =>
      NewRequest_err T method url = Some e ∨
      ∃ k, (k < 5)%nat ∧
           is_DoError (client_Do T k (NewRequest method url headers body)) ∧
           ctx_select T k (Z.of_nat (k + 1) * Second) = Some e
  | (None, None) =>
      ∀ j, (j < 5)%nat →
           is_DoError (client_Do T j (NewRequest method url headers body)) ∧
           ctx_select T j (Z.of_nat (j + 1) * Second) = None
  | (Some _, Some _) => False
  end.
Proof.
  pose proof (doRequest_loop_outcomes T 5 0 method url headers body ltac:(lia))
    as H.
  unfold doRequest. change (MaxRetryForSession + 1)%nat with 5%nat.
  destruct (doRequest_loop _ _ _ _ _ _ _ _) as [[[resp|] [e|]] tr];
    cbn [fst] in *; [done| | |].
  - destruct H as (k & Hk & Hresp). exists k. split; [lia|done].
  - destruct H as [Hn|(k & Hk & Herr & Hctx)]; [by left|].
    right. exists k. split; [lia|done].
  - intros j Hj. apply H. lia.
Qed.

Lemma total_wait_loop (T : Transport) (n i : nat) (method url : string)
    (headers : option Header) (body : option (gmap string string))
    (err : option error) :
  (i + n < 1000)%nat →
  0 ≤ 2 * total_wait (doRequest_loop T n i method url headers body err).2
    ≤ (2 * Z.of_nat n * Z.of_nat i + Z.of_nat n * (Z.of_nat n + 1)) * Second ∧
  (length (waits (doRequest_loop T n i method url headers body err).2)
   ≤ attempts (doRequest_loop T n i method url headers body err).2)%nat.
Proof.
  revert i. induction n as [|n IH]; intros i Hi.
  - cbn. unfold Second. lia.
  - cbn [doRequest_loop]. unfold attempts in *.
    destruct (NewRequest_err T method url); [cbn; unfold Second; lia|].
    destruct (client_Do T i _); [cbn; unfold Second; lia|].
    rewrite retry_wait by lia.
    destruct (ctx_select T i _).
    { cbn. unfold total_wait, Second. cbn. split; [|lia]. nia. }
    specialize (IH (i + 1)%nat ltac:(lia)).
    destruct (doRequest_loop _ _ _ _ _ _ _ _) as [r tr].
    unfold total_wait, Second in *. cbn in *. split; [|lia]. nia.
Qed.

(** X5.  A run of [doRequest] waits fifteen seconds at most in total, and
    it waits only after a request: there are no more waits than
    requests. *)
Theorem doRequest_waits_at_most_15s (T : Transport) (method url : string)
    (headers : option Header) (body : option (gmap string string)) :
  0 ≤ total_wait (doRequest T method url headers body).2 ≤ 15 * Second ∧
  (length (waits (doRequest T method url headers body).2)
   ≤ attempts (doRequest T method url headers body).2)%nat.
Proof.
  pose proof (total_wait_loop T 5 0 method url headers body None ltac:(lia))
    as [Hw Hn].
  unfold doRequest. change (MaxRetryForSession + 1)%nat with 5%nat.
  split; [|done]. unfold Second in *. lia.
Qed.

Lemma doRequest_exhausted (T : Transport) (method url : string)
    (headers : option Header) (body : option (gmap string string)) :
  NewRequest_err T method url = None →
  (∀ j req, is_DoError (client_Do T j req)) →
  (∀ j d, ctx_select T j d = None) →
  (doRequest T method url headers body).1 = (None, None).
Proof.
  intros Hnew Hdo Hsel. unfold doRequest.
  change (MaxRetryForSession + 1)%nat with (5 + 0)%nat.
  rewrite doRequest_loop_failed by (done || lia || (intros; apply Hdo)
                                    || (intros; apply Hsel)).
  reflexivity.
Qed.

(** X6.  When no attempt gets through and the context is never done, the
    six operations that send a request do not return an error: they panic
    on the nil response [doRequest] gives them with a nil error. *)
Theorem operations_panic_when_transport_is_dead `{StdLib}
    (T : Transport) (c : ClientConfig) :
  (∀ method url, NewRequest_err T method url = None) →
  (∀ j req, is_DoError (client_Do T j req)) →
  (∀ j d, ctx_select T j d = None) →
  (∀ queryText queryType name description idempotencyKey requestID,
     (CreateQuery T c queryText queryType name description idempotencyKey
        requestID).1 = Panics) ∧
  (∀ queryID requestID, (GetQueryStatus T c queryID requestID).1 = Panics) ∧
  (∀ queryID requestID, (GetQuery T c queryID requestID).1 = Panics) ∧
  (∀ queryID idempotencyKey requestID,
     (StopQuery T c queryID idempotencyKey requestID).1 = Panics) ∧
  (∀ queryID resultSetIndex offset limit rawFormat requestID,
     (GetQueryResultSetPage T c queryID resultSetIndex offset limit rawFormat
        requestID).1 = Panics) ∧
  (GetOpenAPISpec T c).1 = Panics.
Proof.
  intros Hnew Hdo Hsel.
  assert (Hex : ∀ method url headers body,
            (doRequest T method url headers body).1 = (None, None)).
  { intros. by apply doRequest_exhausted. }
  repeat split; intros;
    unfold CreateQuery, GetQueryStatus, GetQuery, StopQuery,
      GetQueryResultSetPage, GetOpenAPISpec;
    match goal with
    | |- context [doRequest T ?m ?u ?h ?b] =>
        pose proof (Hex m u h b) as Hr;
        destruct (doRequest T m u h b) as [r tr]; cbn in Hr; subst r; reflexivity
    end.
Qed.

Lemma operations_panic_when_transport_is_dead_witness :
  (GetQueryStatus (L := ReferenceLib) dead_transport sample_config "q1" "").1
  = Panics.
Proof.
  destruct (operations_panic_when_transport_is_dead (H := ReferenceLib)
              dead_transport sample_config) as (_ & Hs & _).
  - reflexivity.
  - intros j req. exact I.
  - reflexivity.
  - apply Hs.
Defined.

(** ** The operations on the first answer *)

Lemma doRequest_first_response (T : Transport) (method url : string)
    (headers : option Header) (body : option (gmap string string))
    (resp : Response) :
  NewRequest_err T method url = None →
  client_Do T 0 (NewRequest method url headers body) = DoResponse resp →
  doRequest T method url headers body
  = ((Some resp, None), [EvDo (NewRequest method url headers body)]).
Proof.
  intros Hnew Hdo. unfold doRequest.
  change (MaxRetryForSession + 1)%nat with 5%nat.
  cbn [doRequest_loop]. by rewrite Hnew, Hdo.
Qed.

Section FirstAnswer.
Context {L : StdLib}.

Lemma validateHTTPError_None (resp : Response) (expectedCode : Z) :
  validateHTTPError resp expectedCode = None ↔ StatusCode resp = expectedCode.
Proof.
  unfold validateHTTPError. case_decide.
  - split; [|done]. by destruct (decode_map _) as [m [e|]].
  - split; [intros _|done]. by destruct (decide (StatusCode resp = expectedCode)).
Qed.

Lemma validateHTTPError_YQErr (resp : Response) (expectedCode : Z) :
  StatusCode resp ≠ expectedCode →
  ∃ e, validateHTTPError resp expectedCode = Some (YQErr e).
Proof.
  intros Hne. unfold validateHTTPError. rewrite decide_True by done.
  destruct (decode_map _) as [m [e|]]; eauto.
Qed.

End FirstAnswer.

(** X7.  [StopQuery] succeeds on status 204 and on no other: when the
    transport answers its first attempt, it returns a nil error exactly
    when the status is 204, and a [YQError] for a 200. *)
Theorem StopQuery_expects_204 `{StdLib} (T : Transport) (c : ClientConfig)
    (queryID idempotencyKey requestID : string) (resp : Response) :
  NewRequest_err T "POST"
    (composeAPIURL c ("/api/fq/v1/queries/" ++ queryID ++ "/stop")) = None →
  client_Do T 0
    (NewRequest "POST"
       (composeAPIURL c ("/api/fq/v1/queries/" ++ queryID ++ "/stop"))
       (Some (buildHeaders c idempotencyKey requestID)) None)
  = DoResponse resp →
  ((StopQuery T c queryID idempotencyKey requestID).1 = Returns None
   ↔ StatusCode resp = 204) ∧
  (StatusCode resp = 200 →
   ∃ e, (StopQuery T c queryID idempotencyKey requestID).1
        = Returns (Some (YQErr e))).
Proof.
  intros Hnew Hdo. unfold StopQuery.
  rewrite (doRequest_first_response _ _ _ _ _ _ Hnew Hdo). cbn [fst].
  split.
  - rewrite <- (validateHTTPError_None resp StatusNoContent).
    split; [by intros [= ->]|by intros ->].
  - intros H200.
    destruct (validateHTTPError_YQErr resp StatusNoContent) as [e He].
    { rewrite H200. done. }
    exists e. by rewrite He.
Qed.

Lemma StopQuery_expects_204_witness :
  ∃ e, (StopQuery (L := ReferenceLib) (answers (response 200 None))
          sample_config "q1" "" "").1 = Returns (Some (YQErr e)).
Proof.
  destruct (StopQuery_expects_204 (H := ReferenceLib)
              (answers (response 200 None)) sample_config "q1" "" ""
              (response 200 None)) as [_ H200].
  - reflexivity.
  - reflexivity.
  - apply H200. reflexivity.
Defined.

(** X8.  An answer with a status other than 200 ends [CreateQuery],
    [GetQueryStatus], [GetQuery], [GetQueryResultSetPage] and
    [GetOpenAPISpec] with a [YQError] and the zero value, after the one
    request that was answered; the body is not read as a result. *)
Theorem operations_return_YQError_on_status `{StdLib}
    (T : Transport) (c : ClientConfig) (resp : Response) :
  (∀ method url, NewRequest_err T method url = None) →
  (∀ req, client_Do T 0 req = DoResponse resp) →
  StatusCode resp ≠ 200 →
  ∃ e, validateHTTPError resp StatusOK = Some (YQErr e) ∧
    (∀ queryText queryType name description idempotencyKey requestID,
       ∃ req, CreateQuery T c queryText queryType name description
                idempotencyKey requestID
              = (Returns ("", Some (YQErr e)), [EvDo req])) ∧
    (∀ queryID requestID,
       ∃ req, GetQueryStatus T c queryID requestID
              = (Returns ("", Some (YQErr e)), [EvDo req])) ∧
    (∀ queryID requestID,
       ∃ req, GetQuery T c queryID requestID
              = (Returns (∅, Some (YQErr e)), [EvDo req])) ∧
    (∀ queryID resultSetIndex offset limit rawFormat requestID,
       ∃ req, GetQueryResultSetPage T c queryID resultSetIndex offset limit
                rawFormat requestID
              = (Returns (∅, Some (YQErr e)), [EvDo req])) ∧
    (∃ req, GetOpenAPISpec T c = (Returns ("", Some (YQErr e)), [EvDo req])).
Proof.
  intros Hnew Hdo Hne.
  destruct (validateHTTPError_YQErr resp StatusOK Hne) as [e He].
  exists e. split; [done|].
  repeat split; intros; eexists;
    unfold CreateQuery, GetQueryStatus, GetQuery, GetQueryResultSetPage,
      GetOpenAPISpec;
    (rewrite (doRequest_first_response T _ _ _ _ resp)
       by (apply Hnew || apply Hdo));
    unfold checked; rewrite He; reflexivity.
Qed.

Lemma operations_return_YQError_on_status_witness :
  ∃ e req, GetQueryStatus (L := ReferenceLib) (answers bad_request)
             sample_config "q1" ""
           = (Returns ("", Some (YQErr e)), [EvDo req])
           ∧ Status e = "BAD_REQUEST".
Proof.
  destruct (operations_return_YQError_on_status (H := ReferenceLib)
              (answers bad_request) sample_config bad_request)
    as (e & He & _ & Hs & _).
  - reflexivity.
  - reflexivity.
  - discriminate.
  - destruct (Hs "q1" "") as [req Hreq].
    exists e, req. split; [exact Hreq|].
    vm_compute in He. injection He as <-. reflexivity.
Defined.

(** X9.  On a 200, [GetQuery] returns the JSON object of the body; a body
    [null] gives the nil map with a nil error; a body that is no JSON or
    JSON of another kind gives an error. *)
Theorem GetQuery_on_200 `{StdLib} (T : Transport) (c : ClientConfig)
    (queryID requestID : string) (resp : Response) :
  NewRequest_err T "GET" (composeAPIURL c ("/api/fq/v1/queries/" ++ queryID))
    = None →
  client_Do T 0
    (NewRequest "GET" (composeAPIURL c ("/api/fq/v1/queries/" ++ queryID))
       (Some (buildHeaders c "" requestID)) None)
  = DoResponse resp →
  StatusCode resp = 200 →
  (∀ m, BodyJSON resp = Some (VMap m) →
        (GetQuery T c queryID requestID).1 = Returns (m, None)) ∧
  (BodyJSON resp = Some VNil →
   (GetQuery T c queryID requestID).1 = Returns (∅, None)) ∧
  ((∀ m, ¬ decodes_as_object (BodyJSON resp) m) →
   ∃ err, (GetQuery T c queryID requestID).1 = Returns (∅, Some err)).
Proof.
  intros Hnew Hdo H200. unfold GetQuery.
  rewrite (doRequest_first_response _ _ _ _ _ _ Hnew Hdo). cbn [fst].
  unfold checked.
  rewrite (proj2 (validateHTTPError_None resp StatusOK) H200).
  split; [|split].
  - by intros m ->.
  - by intros ->.
  - intros Hno. destruct (decode_map_other _ Hno) as (m & e & ->). eauto.
Qed.

Lemma GetQuery_on_200_witness :
  (GetQuery (L := ReferenceLib) (answers (response 200 (Some VNil)))
     sample_config "q1" "").1 = Returns (∅, None).
Proof.
  destruct (GetQuery_on_200 (H := ReferenceLib)
              (answers (response 200 (Some VNil))) sample_config "q1" ""
              (response 200 (Some VNil))) as (_ & Hnull & _).
  - reflexivity.
  - reflexivity.
  - reflexivity.
  - apply Hnull. reflexivity.
Defined.

(** X10.  [GetQueryResultSetPage] sends the same request and returns the
    same result whatever the offset, the limit, the raw-format flag and the
    configured project are: the parameters it collects do not reach the
    URL, which is the endpoint followed by the path of the result set. *)
Theorem GetQueryResultSetPage_ignores_window `{StdLib}
    (T : Transport) (c : ClientConfig) (project : string) (queryID : string)
    (resultSetIndex offset limit offset' limit' : Z) (rawFormat rawFormat' : bool)
    (requestID : string) :
  GetQueryResultSetPage T c queryID resultSetIndex offset limit rawFormat
    requestID
  = GetQueryResultSetPage T (with_project project c) queryID resultSetIndex
      offset' limit' rawFormat' requestID ∧
  (∀ req,
     req ∈ requests (GetQueryResultSetPage T c queryID resultSetIndex offset
                       limit rawFormat requestID).2 →
     URL req = Endpoint c ++ "/api/fq/v1/queries/" ++ queryID ++ "/results/"
               ++ pretty resultSetIndex).
Proof.
  split; [reflexivity|].
  intros req Hin.
  by rewrite (requests_GetQueryResultSetPage _ _ _ _ _ _ _ _ _ Hin).
Qed.

Lemma GetQueryResultSetPage_ignores_window_witness :
  GetQueryResultSetPage (L := ReferenceLib) ok_transport sample_config "q1" 0
    0 1000 false ""
  = GetQueryResultSetPage (L := ReferenceLib) ok_transport
      (with_project "" sample_config) "q1" 0 5000 10 true "".
Proof.
  apply (GetQueryResultSetPage_ignores_window (H := ReferenceLib) ok_transport
           sample_config "" "q1" 0 0 1000 5000 10 false true "").
Defined.

(** ** More on polling *)

Lemma WaitQueryToComplete_after_pending (E : PollEnv) (queryID : string)
    (executionTimeout : Duration) (stopOnTimeout : bool) (n fuel : nat) :
  (∀ j, (j < n)%nat →
        ¬ (0 < executionTimeout ∧ executionTimeout < time_Since E j)) →
  (∀ j, (j < n)%nat → still_running E queryID j) →
  (∀ j, (j < n)%nat → poll_select E j (backoff j) = None) →
  (n < fuel)%nat →
  WaitQueryToComplete E fuel queryID executionTimeout stopOnTimeout
  = (let '(r, tr) :=
       WaitQueryToComplete_loop E (S (fuel - n - 1)) n queryID executionTimeout
         stopOnTimeout (backoff n) in
     (r, (pending_polls queryID 0 n ++ tr)%list)).
Proof.
  intros Hclock Hrun Hsel Hfuel. unfold WaitQueryToComplete.
  replace fuel with (n + S (fuel - n - 1))%nat at 1 by lia.
  change (200 * Millisecond) with (backoff 0).
  rewrite WaitQueryToComplete_loop_pending; [done|..].
  - intros j Hj. apply Hclock. lia.
  - intros j Hj. apply Hrun. lia.
  - intros j Hj. apply Hsel. lia.
Qed.

(** X11.  An error of a status poll ends [WaitQueryToComplete] at once:
    after [n] polls that found the query running, the error of poll [n] is
    returned with an empty status, nothing is slept after it and no stop
    call is made, whatever [stopOnTimeout] is. *)
Theorem WaitQueryToComplete_returns_poll_error
    (E : PollEnv) (queryID : string) (executionTimeout : Duration)
    (stopOnTimeout : bool) (n fuel : nat) (status : string) (err : error) :
  (∀ j, (j ≤ n)%nat →
        ¬ (0 < executionTimeout ∧ executionTimeout < time_Since E j)) →
  (∀ j, (j < n)%nat → still_running E queryID j) →
  (∀ j, (j < n)%nat → poll_select E j (backoff j) = None) →
  GetQueryStatus_result E n queryID "" = Some (status, Some err) →
  (n < fuel)%nat →
  WaitQueryToComplete E fuel queryID executionTimeout stopOnTimeout
  = (Returns ("", Some err),
     (pending_polls queryID 0 n ++ [EvStatus queryID ""])%list) ∧
  stop_calls (WaitQueryToComplete E fuel queryID executionTimeout
                stopOnTimeout).2 = [].
Proof.
  intros Hclock Hrun Hsel Herr Hfuel.
  assert (Heq : WaitQueryToComplete E fuel queryID executionTimeout stopOnTimeout
    = (Returns ("", Some err),
       (pending_polls queryID 0 n ++ [EvStatus queryID ""])%list)).
  { rewrite (WaitQueryToComplete_after_pending E queryID executionTimeout
               stopOnTimeout n fuel); [|intros; apply Hclock; lia|done..].
    cbn [WaitQueryToComplete_loop].
    rewrite decide_False by (apply Hclock; lia). by rewrite Herr. }
  rewrite Heq. split; [done|]. cbn [snd].
  destruct (pending_polls_count queryID 0 n) as (_ & _ & Hstop).
  by rewrite stop_calls_app, Hstop.
Qed.

Lemma WaitQueryToComplete_returns_poll_error_witness :
  WaitQueryToComplete poll_fails_third 10 "q1" 0 true
  = (Returns ("", Some (bare_error 503)),
     [EvStatus "q1" ""; EvSleep (200 * Millisecond);
      EvStatus "q1" ""; EvSleep (400 * Millisecond); EvStatus "q1" ""]).
Proof.
  destruct (WaitQueryToComplete_returns_poll_error poll_fails_third "q1" 0 true
              2 10 "" (bare_error 503)) as [H _]; [..|exact H].
  - intros j _ [H0 _]. lia.
  - intros j Hj. exists "RUNNING".
    destruct j as [|[|j]]; [split; reflexivity..|lia].
  - intros j _. reflexivity.
  - reflexivity.
  - lia.
Defined.

(** X12.  When the context is done during the sleep after poll [n],
    [WaitQueryToComplete] returns the context's error with an empty status;
    it polls no more and makes no stop call. *)
Theorem WaitQueryToComplete_returns_context_error
    (E : PollEnv) (queryID : string) (executionTimeout : Duration)
    (stopOnTimeout : bool) (n fuel : nat) (ctx_err : error) :
  (∀ j, (j ≤ n)%nat →
        ¬ (0 < executionTimeout ∧ executionTimeout < time_Since E j)) →
  (∀ j, (j ≤ n)%nat → still_running E queryID j) →
  (∀ j, (j < n)%nat → poll_select E j (backoff j) = None) →
  poll_select E n (backoff n) = Some ctx_err →
  (n < fuel)%nat →
  WaitQueryToComplete E fuel queryID executionTimeout stopOnTimeout
  = (Returns ("", Some ctx_err),
     (pending_polls queryID 0 n
      ++ [EvStatus queryID ""; EvSleep (backoff n)])%list) ∧
  status_polls (WaitQueryToComplete E fuel queryID executionTimeout
                  stopOnTimeout).2 = (n + 1)%nat ∧
  stop_calls (WaitQueryToComplete E fuel queryID executionTimeout
                stopOnTimeout).2 = [].
Proof.
  intros Hclock Hrun Hsel Hctx Hfuel.
  assert (Heq : WaitQueryToComplete E fuel queryID executionTimeout stopOnTimeout
    = (Returns ("", Some ctx_err),
       (pending_polls queryID 0 n
        ++ [EvStatus queryID ""; EvSleep (backoff n)])%list)).
  { rewrite (WaitQueryToComplete_after_pending E queryID executionTimeout
               stopOnTimeout n fuel);
      [|intros; apply Hclock; lia|intros; apply Hrun; lia|done..].
    cbn [WaitQueryToComplete_loop].
    rewrite decide_False by (apply Hclock; lia).
    destruct (Hrun n ltac:(lia)) as (s & -> & ->). cbn [negb].
    by rewrite Hctx. }
  rewrite Heq. split; [done|]. cbn [snd].
  destruct (pending_polls_count queryID 0 n) as (Hc & _ & Hstop).
  rewrite status_polls_app, stop_calls_app, Hc, Hstop. done.
Qed.

Lemma WaitQueryToComplete_returns_context_error_witness :
  WaitQueryToComplete cancelled_second 10 "q1" 0 false
  = (Returns ("", Some (LibErr "context" "context canceled")),
     [EvStatus "q1" ""; EvSleep (200 * Millisecond);
      EvStatus "q1" ""; EvSleep (400 * Millisecond)]).
Proof.
  destruct (WaitQueryToComplete_returns_context_error cancelled_second "q1" 0
              false 1 10 (LibErr "context" "context canceled")) as [H _];
    [..|exact H].
  - intros j _ [H0 _]. lia.
  - intros j _. exists "RUNNING". split; reflexivity.
  - intros j Hj. destruct j as [|j]; [reflexivity|lia].
  - reflexivity.
  - lia.
Defined.




(** ** [WaitQueryToSucceed] *)

(** X14.  [WaitQueryToSucceed] returns a count with a nil error exactly
    when the wait ended with the status COMPLETED, the query document was
    fetched without error and has a slice under [result_sets]; the count is
    the length of that slice. *)
Theorem WaitQueryToSucceed_count `{StdLib} (E : SucceedEnv) (fuel : nat)
    (queryID : string) (executionTimeout : Duration) (stopOnTimeout : bool)
    (n : Z) :
  (WaitQueryToSucceed E fuel queryID executionTimeout stopOnTimeout).1
    = Returns (n, None)
  ↔ ∃ resultSets,
      (WaitQueryToComplete (se_poll E) fuel queryID executionTimeout
         stopOnTimeout).1 = Returns ("COMPLETED", None) ∧
      (GetQuery_result E queryID "").2 = None ∧
      index (GetQuery_result E queryID "").1 "result_sets" = VSlice resultSets ∧
      n = Z.of_nat (length resultSets).
Proof.
  unfold WaitQueryToSucceed.
  destruct (WaitQueryToComplete _ _ _ _ _) as [[[status [err|]]| |] tr];
    cbn [fst snd]; try (split; [done|by intros (? & ? & _)]).
  destruct (GetQuery_result E queryID "") as [query [err|]]; cbn [fst snd];
    [split; [done|by intros (? & _ & ? & _)]|].
  case_decide as Hst.
  - cbn. split; [done|]. intros (? & [=] & _). congruence.
  - subst status.
    destruct (index query "result_sets") eqn:Hrs; cbn;
      try (split; [done|by intros (? & _ & _ & ? & _)]).
    split.
    + intros [= <-]. eauto.
    + intros (rs & _ & _ & [= <-] & ->). done.
Qed.

Lemma WaitQueryToSucceed_count_witness :
  (WaitQueryToSucceed (L := ReferenceLib) succeeds_third 10 "q1" 0 false).1
  = Returns (2, None).
Proof.
  apply (WaitQueryToSucceed_count (H := ReferenceLib) succeeds_third 10 "q1" 0
           false 2).
  exists [VMap ∅; VMap ∅]. repeat split; vm_compute; reflexivity.
Defined.

(** X15.  How [WaitQueryToSucceed] fails.  An error of the wait is
    returned without fetching the query document.  After a wait that ended
    with a status other than COMPLETED the document is fetched all the same
    and the result is an error that quotes its [issues], whatever else the
    document holds.  An error of the fetch is returned as it is.  And a
    COMPLETED query whose document has no slice under [result_sets] gives
    the error [unexpected result_sets format].  The count is zero in all
    four cases. *)
Theorem WaitQueryToSucceed_failures `{StdLib} (E : SucceedEnv) (fuel : nat)
    (queryID : string) (executionTimeout : Duration) (stopOnTimeout : bool) :
  (∀ status err,
     (WaitQueryToComplete (se_poll E) fuel queryID executionTimeout
        stopOnTimeout).1 = Returns (status, Some err) →
     (WaitQueryToSucceed E fuel queryID executionTimeout stopOnTimeout).1
       = Returns (0, Some err) ∧
     ¬ asks_query (WaitQueryToSucceed E fuel queryID executionTimeout
                     stopOnTimeout).2) ∧
  (∀ status query,
     (WaitQueryToComplete (se_poll E) fuel queryID executionTimeout
        stopOnTimeout).1 = Returns (status, None) →
     status ≠ "COMPLETED" →
     GetQuery_result E queryID "" = (query, None) →
     (WaitQueryToSucceed E fuel queryID executionTimeout stopOnTimeout).1
       = Returns (0, Some (FmtErr
           ("query " ++ queryID ++ " failed with issues="
            ++ Sprint (VSlice (match index query "issues" with
                               | VSlice l => l
                               | _ => []
                               end))))) ∧
     asks_query (WaitQueryToSucceed E fuel queryID executionTimeout
                   stopOnTimeout).2) ∧
  (∀ status query err,
     (WaitQueryToComplete (se_poll E) fuel queryID executionTimeout
        stopOnTimeout).1 = Returns (status, None) →
     GetQuery_result E queryID "" = (query, Some err) →
     (WaitQueryToSucceed E fuel queryID executionTimeout stopOnTimeout).1
       = Returns (0, Some err)) ∧
  (∀ query,
     (WaitQueryToComplete (se_poll E) fuel queryID executionTimeout
        stopOnTimeout).1 = Returns ("COMPLETED", None) →
     GetQuery_result E queryID "" = (query, None) →
     (∀ l, index query "result_sets" ≠ VSlice l) →
     (WaitQueryToSucceed E fuel queryID executionTimeout stopOnTimeout).1
       = Returns (0, Some (FmtErr "unexpected result_sets format"))).
Proof.
  unfold WaitQueryToSucceed.
  destruct (WaitQueryToComplete _ _ _ _ _) as [r tr]. cbn [fst].
  split; [|split; [|split]].
  - intros status err ->. split; [done|]. cbn [snd].
    intros (q & rid & Hin). apply list_elem_of_fmap in Hin as (e & Heq & _).
    discriminate.
  - intros status query -> Hne ->. rewrite decide_True by done.
    split; [done|]. cbn [snd]. exists queryID, "".
    apply elem_of_app. right. apply list_elem_of_here.
  - by intros status query err -> ->.
  - intros query -> -> Hno. rewrite decide_False by (by intros []).
    destruct (index query "result_sets") eqn:Hrs; try done.
    by destruct (Hno l).
Qed.

Lemma WaitQueryToSucceed_failures_witness :
  (WaitQueryToSucceed (L := ReferenceLib) fails_first 10 "q1" 0 false).1
  = Returns (0, Some (FmtErr "query q1 failed with issues=[syntax error]")).
Proof.
  destruct (WaitQueryToSucceed_failures (H := ReferenceLib) fails_first 10 "q1"
              0 false) as (_ & Hfailed & _).
  destruct (Hfailed "FAILED" failed_query) as [Hres _].
  - reflexivity.
  - discriminate.
  - reflexivity.
  - exact Hres.
Defined.

(** ** More on pagination *)

Lemma index_assembled (columns : value) (rows : list value) :
  index (assembled columns rows) "columns" = columns ∧
  index (assembled columns rows) "rows" = VSlice rows.
Proof. unfold index, assembled. by simplify_map_eq. Qed.

Lemma GetQueryResultSet_after_full `{StdLib} (E : PageEnv) (queryID : string)
    (resultSetIndex : Z) (rawFormat : bool) (full : list (gmap string value))
    (fuel : nat) :
  Forall (λ p, has_rows p ∧ length (rows_of p) = 1000%nat) full →
  (∀ j p, full !! j = Some p →
     GetQueryResultSetPage_result E j
       (page_call queryID resultSetIndex rawFormat j) = (p, None)) →
  1000 * Z.of_nat (length full) < 2 ^ 63 →
  (length full < fuel)%nat →
  GetQueryResultSet_loop E fuel 0 queryID resultSetIndex rawFormat 0 1000 VNil []
  = (let '(o, tr) :=
       GetQueryResultSet_loop E (S (fuel - length full - 1)) (length full)
         queryID resultSetIndex rawFormat (1000 * Z.of_nat (length full)) 1000
         (columns_after VNil full) (concat (rows_of <$> full)) in
     (o, ((page_call queryID resultSetIndex rawFormat <$> seq 0 (length full))
          ++ tr)%list)).
Proof.
  intros Hfull Hpages Hbound Hfuel.
  replace fuel with (length full + S (fuel - length full - 1))%nat at 1 by lia.
  change 0 with (1000 * Z.of_nat 0) at 1.
  by rewrite GetQueryResultSet_loop_full.
Qed.

(** X16.  An error of a page call, or a page without a slice under
    [rows], ends [GetQueryResultSet] with that error (for the second,
    [unexpected rows format]) and the nil map: the rows of the pages fetched
    before are dropped, and no further page is fetched. *)
Theorem GetQueryResultSet_page_failure `{StdLib} (E : PageEnv)
    (queryID : string) (resultSetIndex : Z) (rawFormat : bool)
    (full : list (gmap string value)) (fuel : nat) :
  Forall (λ p, has_rows p ∧ length (rows_of p) = 1000%nat) full →
  (∀ j p, full !! j = Some p →
     GetQueryResultSetPage_result E j
       (page_call queryID resultSetIndex rawFormat j) = (p, None)) →
  1000 * Z.of_nat (length full) < 2 ^ 63 →
  (length full < fuel)%nat →
  (∀ part err,
     GetQueryResultSetPage_result E (length full)
       (page_call queryID resultSetIndex rawFormat (length full))
     = (part, Some err) →
     GetQueryResultSet E fuel queryID resultSetIndex rawFormat
     = (Returns (∅, Some err),
        page_call queryID resultSetIndex rawFormat <$> seq 0 (length full + 1))) ∧
  (∀ part,
     GetQueryResultSetPage_result E (length full)
       (page_call queryID resultSetIndex rawFormat (length full))
     = (part, None) →
     ¬ has_rows part →
     GetQueryResultSet E fuel queryID resultSetIndex rawFormat
     = (Returns (∅, Some (FmtErr "unexpected rows format")),
        page_call queryID resultSetIndex rawFormat <$> seq 0 (length full + 1))).
Proof.
  intros Hfull Hpages Hbound Hfuel.
  pose proof (GetQueryResultSet_after_full E queryID resultSetIndex rawFormat
                full fuel Hfull Hpages Hbound Hfuel) as Hloop.
  unfold GetQueryResultSet.
  split.
  - intros part err Hpage. rewrite Hloop. cbn [GetQueryResultSet_loop].
    unfold page_call in Hpage. rewrite Hpage.
    by rewrite seq_app, fmap_app.
  - intros part Hpage Hno. rewrite Hloop. cbn [GetQueryResultSet_loop].
    unfold page_call in Hpage. rewrite Hpage.
    rewrite seq_app, fmap_app.
    destruct (index part "rows") eqn:Hrows; try done.
    exfalso. apply Hno. by eexists.
Qed.

Lemma GetQueryResultSet_page_failure_witness :
  GetQueryResultSet (L := ReferenceLib)
    {| GetQueryResultSetPage_result := λ _ _, (∅, None) |} 5 "q1" 0 true
  = (Returns (∅, Some (FmtErr "unexpected rows format")), [page_call "q1" 0 true 0]).
Proof.
  destruct (GetQueryResultSet_page_failure (H := ReferenceLib)
              {| GetQueryResultSetPage_result := λ _ _, (∅, None) |}
              "q1" 0 true [] 5) as [_ Hrows].
  - constructor.
  - intros j p Hp. done.
  - cbn. lia.
  - cbn. lia.
  - apply (Hrows ∅); [reflexivity|].
    intros [r Hr]. discriminate.
Defined.

(** X17.  Against a backend that answers every call with a page of
    exactly 1000 rows, [GetQueryResultSet] does not end: whatever the fuel,
    the loop is still running when it is spent, after one call per unit of
    fuel. *)
Theorem GetQueryResultSet_never_ends_on_full_pages `{StdLib} (E : PageEnv)
    (queryID : string) (resultSetIndex : Z) (rawFormat : bool) :
  (∀ k call, ∃ p, GetQueryResultSetPage_result E k call = (p, None) ∧
                  has_rows p ∧ length (rows_of p) = 1000%nat) →
  ∀ fuel,
    (GetQueryResultSet E fuel queryID resultSetIndex rawFormat).1 = OutOfFuel ∧
    length (GetQueryResultSet E fuel queryID resultSetIndex rawFormat).2 = fuel.
Proof.
  intros Hfull fuel.
  assert (Hloop : ∀ k offset columns rows,
    (GetQueryResultSet_loop E fuel k queryID resultSetIndex rawFormat offset 1000
       columns rows).1 = OutOfFuel ∧
    length (GetQueryResultSet_loop E fuel k queryID resultSetIndex rawFormat
              offset 1000 columns rows).2 = fuel).
  { induction fuel as [|fuel IH]; intros k offset columns rows; [done|].
    cbn [GetQueryResultSet_loop].
    destruct (Hfull k {| pc_queryID := queryID;
                         pc_resultSetIndex := resultSetIndex;
                         pc_offset := offset; pc_limit := 1000;
                         pc_rawFormat := rawFormat; pc_requestID := "" |})
      as (p & -> & Hrows & Hlen).
    rewrite (has_rows_of p Hrows).
    rewrite decide_False by (rewrite Hlen; lia).
    match goal with
    | |- context [GetQueryResultSet_loop E fuel ?k' _ _ _ ?o _ ?c ?r] =>
        destruct (IH k' o c r) as [H1 H2];
        destruct (GetQueryResultSet_loop E fuel k' queryID resultSetIndex
                    rawFormat o 1000 c r) as [out tr]
    end.
    cbn in *. by subst. }
  unfold GetQueryResultSet.
  destruct (Hloop 0%nat 0 VNil []) as [H1 H2].
  destruct (GetQueryResultSet_loop _ _ _ _ _ _ _ _ _ _) as [out tr].
  cbn in *. by subst.
Qed.

Lemma GetQueryResultSet_never_ends_on_full_pages_witness :
  (GetQueryResultSet (L := ReferenceLib) endless_pages 3 "q1" 0 true).1
  = OutOfFuel.
Proof.
  destruct (GetQueryResultSet_never_ends_on_full_pages (H := ReferenceLib)
              endless_pages "q1" 0 true) with (fuel := 3%nat) as [H _];
    [|exact H].
  intros k call. exists (page_of 1000 (Some no_columns)).
  split; [reflexivity|]. split; [eexists; reflexivity|].
  vm_compute. reflexivity.
Defined.

(** X18.  When no page brings a slice under [columns], here for a result
    set of one short page, the raw format returns the assembled document
    and the converted format panics: the conversion asserts that [columns]
    is a slice. *)
Theorem GetQueryResultSet_converted_needs_columns `{StdLib} (E : PageEnv)
    (queryID : string) (resultSetIndex : Z) (p : gmap string value) (fuel : nat) :
  (∀ rawFormat,
     GetQueryResultSetPage_result E 0
       (page_call queryID resultSetIndex rawFormat 0) = (p, None)) →
  has_rows p →
  length (rows_of p) ≠ 1000%nat →
  (∀ l, index p "columns" ≠ VSlice l) →
  (0 < fuel)%nat →
  (GetQueryResultSet E fuel queryID resultSetIndex true).1
    = Returns (assembled (index p "columns") (rows_of p), None) ∧
  (GetQueryResultSet E fuel queryID resultSetIndex false).1 = Panics.
Proof.
  intros Hpage Hrows Hlen Hcols Hfuel.
  destruct fuel as [|fuel]; [lia|].
  unfold GetQueryResultSet. cbn [GetQueryResultSet_loop].
  split.
  - pose proof (Hpage true) as Hp. unfold page_call in Hp.
    change (1000 * Z.of_nat 0) with 0 in Hp.
    rewrite Hp, (has_rows_of p Hrows).
    rewrite decide_True by lia. reflexivity.
  - pose proof (Hpage false) as Hp. unfold page_call in Hp.
    change (1000 * Z.of_nat 0) with 0 in Hp.
    rewrite Hp, (has_rows_of p Hrows).
    rewrite decide_True by lia. cbn [fst app].
    unfold converted.
    destruct (index_assembled (index p "columns") (rows_of p)) as [Hc1 _].
    rewrite Hc1.
    destruct (index p "columns") eqn:Hc; try done.
    by destruct (Hcols l).
Qed.

Lemma GetQueryResultSet_converted_needs_columns_witness :
  (GetQueryResultSet (L := ReferenceLib) columnless_page 5 "q1" 0 false).1
  = Panics.
Proof.
  destruct (GetQueryResultSet_converted_needs_columns (H := ReferenceLib)
              columnless_page "q1" 0 (page_of 3 None) 5) as [_ H];
    [..|exact H].
  - reflexivity.
  - eexists. reflexivity.
  - vm_compute. discriminate.
  - intros l. vm_compute. discriminate.
  - lia.
Defined.

(** ** [GetQueryAllResultSets] *)

Lemma GetQueryAllResultSets_loop_prefix `{StdLib} (E : PageEnv) (fuel : nat)
    (queryID : string) (rawFormat : bool) (docs : list (gmap string value))
    (m : nat) :
  ∀ (i : nat) (results : list value),
    (∀ j doc, docs !! j = Some doc →
       (GetQueryResultSet E fuel queryID (Z.of_nat (i + j)) rawFormat).1
       = Returns (doc, None)) →
    (GetQueryAllResultSets_loop E fuel (length docs + m) (Z.of_nat i) queryID
       rawFormat results).1
    = (GetQueryAllResultSets_loop E fuel m (Z.of_nat (i + length docs)) queryID
         rawFormat (results ++ (VMap <$> docs))).1.
Proof.
  induction docs as [|doc docs IH]; intros i results Hok.
  - cbn. by rewrite Nat.add_0_r, app_nil_r.
  - cbn [length Nat.add GetQueryAllResultSets_loop].
    pose proof (Hok 0%nat doc eq_refl) as H0. rewrite Nat.add_0_r in H0.
    destruct (GetQueryResultSet E fuel queryID (Z.of_nat i) rawFormat)
      as [o tr]. cbn in H0. subst o.
    replace (Z.of_nat i + 1) with (Z.of_nat (i + 1)) by lia.
    specialize (IH (i + 1)%nat (results ++ [VMap doc])%list).
    destruct (GetQueryAllResultSets_loop E fuel (length docs + m) _ _ _ _)
      as [o tr'].
    cbn [fst] in *. rewrite IH.
    + rewrite <- (assoc_L app). cbn.
      by replace (i + 1 + length docs)%nat with (i + S (length docs))%nat by lia.
    + intros j d Hd. replace (i + 1 + j)%nat with (i + S j)%nat by lia.
      by apply Hok.
Qed.

(** X19.  [GetQueryAllResultSets] returns the map of the result set
    itself, not a slice, when the count is one; for a count of zero or less
    it returns the empty slice without fetching anything; for another count
    it returns the slice of the result sets 0, 1, ... in that order when
    each is fetched without error; and the first result set that fails ends
    it with that error and a nil result, the ones fetched before being
    dropped. *)
Theorem GetQueryAllResultSets_results `{StdLib} (E : PageEnv) (fuel : nat)
    (queryID : string) (rawFormat : bool) :
  (∀ r, (GetQueryResultSet E fuel queryID 0 rawFormat).1 = Returns (r, None) →
        (GetQueryAllResultSets E fuel queryID 1 rawFormat).1
        = Returns (VMap r, None)) ∧
  (∀ resultSetCount,
     resultSetCount ≤ 0 →
     GetQueryAllResultSets E fuel queryID resultSetCount rawFormat
     = (Returns (VSlice [], None), [])) ∧
  (∀ docs,
     length docs ≠ 1%nat →
     (∀ j doc, docs !! j = Some doc →
        (GetQueryResultSet E fuel queryID (Z.of_nat j) rawFormat).1
        = Returns (doc, None)) →
     (GetQueryAllResultSets E fuel queryID (Z.of_nat (length docs)) rawFormat).1
     = Returns (VSlice (VMap <$> docs), None)) ∧
  (∀ docs resultSetCount r err,
     1 < resultSetCount →
     Z.of_nat (length docs) < resultSetCount →
     (∀ j doc, docs !! j = Some doc →
        (GetQueryResultSet E fuel queryID (Z.of_nat j) rawFormat).1
        = Returns (doc, None)) →
     (GetQueryResultSet E fuel queryID (Z.of_nat (length docs)) rawFormat).1
     = Returns (r, Some err) →
     (GetQueryAllResultSets E fuel queryID resultSetCount rawFormat).1
     = Returns (VNil, Some err)).
Proof.
  unfold GetQueryAllResultSets.
  split; [|split; [|split]].
  - intros r Hr. rewrite decide_True by done.
    destruct (GetQueryResultSet _ _ _ _ _) as [o tr]. cbn in Hr. by subst o.
  - intros n Hn. rewrite decide_False by lia.
    replace (Z.to_nat n) with 0%nat by lia. reflexivity.
  - intros docs Hlen Hok. rewrite decide_False by lia.
    rewrite Nat2Z.id. rewrite <- (Nat.add_0_r (length docs)) at 1.
    by rewrite (GetQueryAllResultSets_loop_prefix E fuel queryID rawFormat docs
                  0 0 []).
  - intros docs n r err Hn Hlen Hok Herr. rewrite decide_False by lia.
    replace (Z.to_nat n)
      with (length docs + S (Z.to_nat n - length docs - 1))%nat by lia.
    rewrite (GetQueryAllResultSets_loop_prefix E fuel queryID rawFormat docs
               _ 0 []) by done.
    cbn [Nat.add GetQueryAllResultSets_loop].
    destruct (GetQueryResultSet _ _ _ _ _) as [o tr]. cbn in Herr. by subst o.
Qed.

Lemma GetQueryAllResultSets_results_witness :
  (GetQueryAllResultSets (L := ReferenceLib) short_pages 5 "q1" 2 true).1
  = Returns (VSlice [VMap (assembled no_columns [VSlice []; VSlice []]);
                     VMap (assembled no_columns [VSlice []; VSlice []])], None)
  ∧ (GetQueryAllResultSets (L := ReferenceLib) short_pages 5 "q1" 1 true).1
    = Returns (VMap (assembled no_columns [VSlice []; VSlice []]), None).
Proof.
  destruct (GetQueryAllResultSets_results (H := ReferenceLib) short_pages 5 "q1"
              true) as (Hone & _ & Hmany & _).
  split.
  - apply (Hmany [assembled no_columns [VSlice []; VSlice []];
                  assembled no_columns [VSlice []; VSlice []]]).
    + cbn. lia.
    + intros [|[|j]] doc Hdoc; cbn in Hdoc; inversion Hdoc; subst;
        vm_compute; reflexivity.
  - apply Hone. vm_compute. reflexivity.
Defined.

(** ** The converted document *)

Section Converted.
Context {L : StdLib}.

Lemma column_converter_Some (col : value) :
  is_Some (column_converter col) ↔ typed_column col.
Proof.
  unfold column_converter, typed_column. split.
  - intros [f Hf]. destruct col; try done.
    destruct (index m "type") eqn:Hty; try done. eauto.
  - intros (m & ty & -> & ->). eauto.
Qed.

Lemma convert_row_Some (converters : list (value → value)) (row : value) :
  is_Some (convert_row converters row) ↔ fitting_row (length converters) row.
Proof.
  unfold convert_row, fitting_row. split.
  - intros [r Hr]. destruct row; try done. case_decide; [eauto|done].
  - intros (cells & -> & Hlen). rewrite decide_True by done. eauto.
Qed.

(** What a successful conversion was made of. *)
Lemma converted_inv (raw doc : gmap string value) :
  converted raw = Some doc →
  ∃ columns rows converters convertedRows,
    index raw "columns" = VSlice columns ∧ index raw "rows" = VSlice rows ∧
    Forall2 (λ col f, column_converter col = Some f) columns converters ∧
    Forall2 (λ row r, convert_row converters row = Some r) rows convertedRows ∧
    doc = <["columns" := VSlice columns]> (<["rows" := VRows convertedRows]> ∅).
Proof.
  unfold converted. intros Hc.
  destruct (index raw "columns") as [| | | | |columns| |]; try done.
  destruct (index raw "rows") as [| | | | |rows| |]; try done.
  destruct (mapM column_converter columns) as [converters|] eqn:Hcv;
    cbn in Hc; [|done].
  destruct (mapM (convert_row converters) rows) as [convertedRows|] eqn:Hrows;
    cbn in Hc; [|done].
  inversion Hc; subst.
  exists columns, rows, converters, convertedRows.
  repeat split; by apply mapM_Some.
Qed.

End Converted.

(** X20.  The conversion of a raw document succeeds exactly when its
    [columns] is a slice of maps that each have a string under [type] and
    its [rows] is a slice of slices of at most as many cells as there are
    columns; for every other document it panics. *)
Theorem converted_defined_iff `{StdLib} (raw : gmap string value) :
  is_Some (converted raw)
  ↔ ∃ columns rows,
      index raw "columns" = VSlice columns ∧ index raw "rows" = VSlice rows ∧
      Forall typed_column columns ∧
      Forall (fitting_row (length columns)) rows.
Proof.
  split.
  - intros [doc Hdoc].
    destruct (converted_inv raw doc Hdoc)
      as (columns & rows & converters & crows & Hc & Hr & Hcv & Hrows & _).
    exists columns, rows. split; [done|]. split; [done|].
    rewrite (Forall2_length _ _ _ Hcv). split.
    + apply Forall_forall. intros col Hin. apply column_converter_Some.
      apply list_elem_of_lookup in Hin as [i Hi].
      destruct (Forall2_lookup_l _ _ _ _ _ Hcv Hi) as (f & _ & Hf). eauto.
    + apply Forall_forall. intros row Hin. apply convert_row_Some.
      apply list_elem_of_lookup in Hin as [i Hi].
      destruct (Forall2_lookup_l _ _ _ _ _ Hrows Hi) as (r & _ & Hrow). eauto.
  - intros (columns & rows & Hc & Hr & Hcols & Hrows).
    unfold converted. rewrite Hc, Hr.
    destruct (mapM_is_Some_2 column_converter columns) as [converters Hcv].
    { eapply Forall_impl; [exact Hcols|]. intros col Hcol.
      by apply column_converter_Some. }
    rewrite Hcv. cbn.
    assert (Hlen : length converters = length columns).
    { apply mapM_Some in Hcv. by rewrite (Forall2_length _ _ _ Hcv). }
    destruct (mapM_is_Some_2 (convert_row converters) rows) as [crows Hcr].
    { eapply Forall_impl; [exact Hrows|]. intros row Hrow.
      apply convert_row_Some. by rewrite Hlen. }
    rewrite Hcr. cbn. eauto.
Qed.

(** X21.  A converted document has exactly the keys [columns] and
    [rows]; its columns are the raw columns; it has as many rows as the raw
    document, and every converted row has as many cells as there are
    columns, however short the raw row was. *)
Theorem converted_shape `{StdLib} (raw doc : gmap string value) :
  converted raw = Some doc →
  ∃ columns rows convertedRows,
    index raw "columns" = VSlice columns ∧ index raw "rows" = VSlice rows ∧
    doc !! "columns" = Some (VSlice columns) ∧
    doc !! "rows" = Some (VRows convertedRows) ∧
    dom doc = ({["columns"; "rows"]} : gset string) ∧
    length convertedRows = length rows ∧
    Forall (λ r, length r = length columns) convertedRows.
Proof.
  intros Hdoc.
  destruct (converted_inv raw doc Hdoc)
    as (columns & rows & converters & crows & Hc & Hr & Hcv & Hrows & ->).
  exists columns, rows, crows.
  split; [done|]. split; [done|].
  split; [by simplify_map_eq|]. split; [by simplify_map_eq|].
  split; [rewrite !dom_insert_L, dom_empty_L; set_solver|].
  split; [symmetry; by eapply Forall2_length|].
  apply Forall_forall. intros r Hin.
  apply list_elem_of_lookup in Hin as [i Hi].
  destruct (Forall2_lookup_r _ _ _ _ _ Hrows Hi) as (row & _ & Hrow).
  unfold convert_row in Hrow. destruct row; try done.
  case_decide; [|done]. inversion Hrow; subst.
  rewrite length_app, length_zip_with, length_replicate.
  rewrite (Forall2_length _ _ _ Hcv). lia.
Qed.

Lemma converted_shape_witness :
  ∃ convertedRows,
    converted (L := ReferenceLib) hello_document
    = Some (<["columns" := VSlice [column "greeting" "String"]]>
              (<["rows" := VRows convertedRows]> ∅))
    ∧ length convertedRows = 1%nat.
Proof.
  destruct (converted_shape (H := ReferenceLib) hello_document
              (<["columns" := VSlice [column "greeting" "String"]]>
                 (<["rows" := VRows [[VString "hello"]]]> ∅)))
    as (columns & rows & crows & _ & Hr & _ & Hrows & _ & Hlen & _).
  - vm_compute. reflexivity.
  - exists [[VString "hello"]]. split; [vm_compute; reflexivity|reflexivity].
Defined.

(** X22.  The cell in row [i] and column [j] of a converted document is
    the converter of the type of column [j] applied to the raw cell, and
    nil when the raw row has no cell [j]. *)
Theorem converted_cell `{StdLib} (raw doc : gmap string value)
    (columns rows cells : list value) (i j : nat) (m : gmap string value)
    (colType : string) :
  converted raw = Some doc →
  index raw "columns" = VSlice columns →
  index raw "rows" = VSlice rows →
  rows !! i = Some (VSlice cells) →
  columns !! j = Some (VMap m) →
  index m "type" = VString colType →
  ∃ convertedRows row,
    doc !! "rows" = Some (VRows convertedRows) ∧
    convertedRows !! i = Some row ∧
    row !! j = Some (match cells !! j with
                     | Some cell => getConverter colType cell
                     | None => VNil
                     end).
Proof.
  intros Hdoc Hc Hr Hi Hj Hty.
  destruct (converted_inv raw doc Hdoc)
    as (columns' & rows' & converters & crows & Hc' & Hr' & Hcv & Hrows & ->).
  rewrite Hc in Hc'. rewrite Hr in Hr'.
  injection Hc' as <-. injection Hr' as <-.
  destruct (Forall2_lookup_l _ _ _ _ _ Hrows Hi) as (row & Hrow & Hconv).
  destruct (Forall2_lookup_l _ _ _ _ _ Hcv Hj) as (f & Hf & Hcol).
  exists crows, row. split; [by simplify_map_eq|]. split; [done|].
  cbn in Hcol. rewrite Hty in Hcol. injection Hcol as <-.
  unfold convert_row in Hconv. case_decide as Hlen; [|done].
  injection Hconv as <-.
  pose proof (lookup_lt_Some _ _ _ Hf) as Hjlt.
  destruct (cells !! j) as [cell|] eqn:Hcell.
  - rewrite lookup_app_l.
    + rewrite lookup_zip_with, Hf. cbn. by rewrite Hcell.
    + rewrite length_zip_with. apply lookup_lt_Some in Hcell. lia.
  - apply lookup_ge_None in Hcell.
    rewrite lookup_app_r by (rewrite length_zip_with; lia).
    apply lookup_replicate_2. rewrite length_zip_with. lia.
Qed.

Lemma converted_cell_witness :
  ∃ convertedRows row,
    (<["columns" := VSlice [column "greeting" "String"]]>
       (<["rows" := VRows [[VString "hello"]]]> (∅ : gmap string value)))
      !! "rows" = Some (VRows convertedRows) ∧
    convertedRows !! 0%nat = Some row ∧
    row !! 0%nat = Some (getConverter (L := ReferenceLib) "String"
                           (VString "aGVsbG8=")).
Proof.
  apply (converted_cell (H := ReferenceLib) hello_document _
           [column "greeting" "String"] [VSlice [VString "aGVsbG8="]]
           [VString "aGVsbG8="] 0 0
           (<["name" := VString "greeting"]> (<["type" := VString "String"]> ∅))
           "String").
  - vm_compute. reflexivity.
  - reflexivity.
  - reflexivity.
  - reflexivity.
  - reflexivity.
  - reflexivity.
Defined.

(** ** Base64 cells *)

Lemma b64_groups_length (n : nat) :
  ∀ (l d : list ascii),
    (length l ≤ n)%nat → b64_groups l = Some d →
    ∃ q, length l = (4 * q)%nat ∧ (length d ≤ 3 * q)%nat.
Proof.
  induction n as [|n IH]; intros l d Hn Hd.
  - destruct l; [|cbn in Hn; lia]. cbn in Hd. injection Hd as <-.
    exists 0%nat. done.
  - destruct l as [|a [|b [|c [|e rest]]]]; try done.
    { cbn in Hd. injection Hd as <-. exists 0%nat. done. }
    cbn [b64_groups] in Hd.
    destruct (b64_value a); [|done]. destruct (b64_value b); [|done].
    destruct (is_pad c).
    { destruct (is_pad e && bool_decide (rest = [])) eqn:Hend; [|done].
      apply andb_prop in Hend as [_ ->%bool_decide_eq_true].
      injection Hd as <-. exists 1%nat. cbn. lia. }
    destruct (b64_value c); [|done].
    destruct (is_pad e).
    { destruct (bool_decide (rest = [])) eqn:Hend; [|done].
      apply bool_decide_eq_true in Hend as ->.
      injection Hd as <-. exists 1%nat. cbn. lia. }
    destruct (b64_value e); [|done].
    destruct (b64_groups rest) as [tl|] eqn:Hrest; cbn in Hd; [|done].
    injection Hd as <-.
    destruct (IH rest tl) as (q & Hq & Hlen); [cbn in Hn; lia|done|].
    exists (S q). cbn [length]. lia.
Qed.

(** X23.  Base64 text must be padded: a String cell whose text, line
    breaks aside, has a length that is not a multiple of four is left as it
    is; and a text that is decoded gives at most three bytes for every four
    characters. *)
Theorem convertFromBase64_needs_padding (s : string) :
  (length (significant s) `mod` 4 ≠ 0 →
   convertFromBase64 (VString s) = VString s)%nat ∧
  (∀ decoded, DecodeString s = Some decoded →
     (4 * String.length decoded ≤ 3 * length (significant s))%nat).
Proof.
  unfold convertFromBase64, DecodeString. fold (significant s).
  destruct (b64_groups (significant s)) as [d|] eqn:Hd;
    cbn -[Nat.modulo Nat.mul].
  - destruct (b64_groups_length _ _ _ (le_n _) Hd) as (q & Hq & Hlen).
    split.
    + intros Hmod. exfalso. apply Hmod. rewrite Hq.
      rewrite Nat.mul_comm. apply Nat.Div0.mod_mul.
    + intros decoded [= <-].
      assert (String.length (string_of_list_ascii d) = length d) as ->.
      { clear. induction d as [|a d IH]; [done|]. cbn. by rewrite IH. }
      lia.
  - split; [done|]. by intros decoded.
Qed.

Lemma convertFromBase64_needs_padding_witness :
  convertFromBase64 (VString "aGVsbG8") = VString "aGVsbG8".
Proof.
  destruct (convertFromBase64_needs_padding "aGVsbG8")
    as [H _].
  apply H. vm_compute. discriminate.
Defined.

(** ** [ToTable] *)

(** X24.  [ToTable] shares the cache with [Results]: on an object that
    has not converted yet, whenever [Results] returns, [ToTable] returns
    too, leaves the same object and store, and gives the rows of the
    document [Results] returns; called again, it gives the same rows and
    changes nothing. *)
Theorem ToTable_shares_cache `{StdLib} (r r1 : Results) (σ σ1 : store)
    (d : option loc) :
  results r = None →
  Results_get r σ = Some (d, r1, σ1) →
  ∃ rows l doc,
    ToTable r σ = Some (rows, r1, σ1) ∧
    ToTable r1 σ1 = Some (rows, r1, σ1) ∧
    d = Some l ∧ σ1 !! l = Some doc ∧ doc !! "rows" = Some (VRows rows).
Proof.
  unfold Results_get. intros Hnone Hget.
  destruct (convert r σ) as [[r' σ']|] eqn:Hc; [|done].
  cbn in Hget. injection Hget as <- <- <-.
  destruct (convert_first _ _ _ _ Hnone Hc)
    as (raw & doc & l & Hraw & Hcv & Hfresh & -> & ->).
  destruct (converted_inv raw doc Hcv)
    as (columns & rows & converters & crows & _ & _ & _ & _ & Hdoc).
  assert (Hrows : doc !! "rows" = Some (VRows crows)) by (subst; by simplify_map_eq).
  exists crows, l, doc.
  assert (Hidx : index doc "rows" = VRows crows) by (unfold index; by rewrite Hrows).
  split; [|split; [|split; [done|split; [apply lookup_insert_eq|done]]]].
  - unfold ToTable. rewrite Hc. cbn. rewrite lookup_insert_eq. cbn.
    by rewrite Hidx.
  - unfold ToTable. rewrite (convert_cached _ _ l) by done. cbn.
    rewrite lookup_insert_eq. cbn. by rewrite Hidx.
Qed.

Lemma ToTable_shares_cache_witness :
  ∃ l doc,
    ToTable (L := ReferenceLib) (NewYQResults (Some 1%positive)) hello_store
    = Some ([[VString "hello"]],
            {| rawResults := Some 1%positive; results := Some l |},
            <[l := doc]> hello_store).
Proof.
  set (doc := <["columns" := VSlice [column "greeting" "String"]]>
                (<["rows" := VRows [[VString "hello"]]]> (∅ : gmap string value))).
  set (l := fresh (dom hello_store)).
  assert (Hcv : converted (L := ReferenceLib) hello_document = Some doc).
  { vm_compute. reflexivity. }
  assert (Hget : Results_get (L := ReferenceLib) (NewYQResults (Some 1%positive))
                   hello_store
                 = Some (Some l, {| rawResults := Some 1%positive;
                                    results := Some l |},
                         <[l := doc]> hello_store)).
  { assert (Hl : hello_store !! 1%positive = Some hello_document)
      by apply lookup_insert_eq.
    unfold Results_get, convert. cbn [results NewYQResults rawResults deref].
    rewrite Hl. cbn [mbind option_bind]. rewrite Hcv. reflexivity. }
  destruct (ToTable_shares_cache (H := ReferenceLib)
              (NewYQResults (Some 1%positive)) _ hello_store _ _
              (eq_refl : results (NewYQResults (Some 1%positive)) = None) Hget)
    as (rows & l' & doc' & Htable & _ & Hl' & Hdoc' & Hrows).
  injection Hl' as <-. rewrite lookup_insert_eq in Hdoc'. injection Hdoc' as <-.
  assert (rows = [[VString "hello"]]) as ->.
  { unfold doc in Hrows. rewrite lookup_insert_ne, lookup_insert_eq in Hrows by done.
    by injection Hrows as <-. }
  exists l, doc. exact Htable.
Defined.
